(** * BBBC dataset loaders (deepchem/molnet/load_function/bbbc_datasets.py)

    A shallow embedding of the three BBBC loader families: the Python
    call protocol that decides how the loader constructors receive their
    arguments, the overlap-probability validation of the BBBC004 loaders,
    the label aggregation of BBBC001/BBBC002 and the fetch / parse / build
    sequence of every [create_dataset], written in a small state-and-
    exception monad over an explicit file system and fetch log. *)

From Stdlib Require Import ZArith List String Ascii Bool Lia.
From Stdlib Require Import SpecFloat.
Import ListNotations.
Local Open Scope string_scope.
Local Open Scope Z_scope.
Local Open Scope list_scope.
Set Warnings "-register-all".

(** ** Python values and exceptions *)

Module Py.

(** The values that travel through the loader calls.  Floats are IEEE
    binary64 numbers in their specification form. *)
Inductive pyval : Type :=
| PyNone
| PyBool (b : bool)
| PyInt (z : Z)
| PyFloat (f : spec_float)
| PyStr (s : string)
| PyList (l : list pyval)
| PyObj (cls : string) (fields : list pyval).

(** Why a call could not be bound to a signature (all are [TypeError]). *)
Inductive TypeErrorKind : Type :=
| TooManyPositional (given allowed : nat)
| MultipleValues (name : string)
| UnexpectedKeyword (name : string)
| MissingArguments (names : list string)
| Unhashable
| NotAPath.

Inductive Exn : Type :=
| TypeError (k : TypeErrorKind)
| ValueError (msg : string)
| KeyError (key : string)
| FileNotFoundError (path : string)
| ExternalError (tag : string).

Inductive Result (A : Type) : Type :=
| Return (a : A)
| Raise (e : Exn).
Arguments Return {A} a.
Arguments Raise {A} e.

Definition rbind {A B} (r : Result A) (k : A -> Result B) : Result B :=
  match r with
  | Return a => k a
  | Raise e => Raise e
  end.

(** *** The call protocol

    A function signature as far as the loaders use it: named parameters
    that may be passed by position or by keyword, each with an optional
    default, and an optional [**kwargs] collector.  None of the functions
    of the module declares [*args]. *)
Record Signature : Type := {
  params : list (string * option pyval);
  var_keyword : bool
}.

Definition Slots := list (string * option pyval).
Definition Kwargs := list (string * pyval).

(** Positional arguments fill the parameters from the left; what does not
    fit is returned as the excess. *)
Fixpoint bind_positional (ps : list (string * option pyval))
         (args : list pyval) : Slots * list pyval :=
  match ps with
  | [] => ([], args)
  | (n, _) :: ps' =>
      match args with
      | [] => ((n, None) :: fst (bind_positional ps' []), [])
      | a :: args' =>
          let r := bind_positional ps' args' in
          ((n, Some a) :: fst r, snd r)
      end
  end.

(** Storing one keyword argument: [None] when no parameter has that name,
    an error when the parameter already holds a value. *)
Fixpoint set_slot (k : string) (v : pyval) (sl : Slots)
  : option (Result Slots) :=
  match sl with
  | [] => None
  | (n, cur) :: sl' =>
      if String.eqb n k then
        match cur with
        | Some _ => Some (Raise (TypeError (MultipleValues k)))
        | None => Some (Return ((n, Some v) :: sl'))
        end
      else
        match set_slot k v sl' with
        | None => None
        | Some (Raise e) => Some (Raise e)
        | Some (Return sl'') => Some (Return ((n, cur) :: sl''))
        end
  end.

Fixpoint bind_keywords (var_kw : bool) (kwargs : Kwargs) (sl : Slots)
         (extra : Kwargs) : Result (Slots * Kwargs) :=
  match kwargs with
  | [] => Return (sl, extra)
  | (k, v) :: rest =>
      match set_slot k v sl with
      | Some (Raise e) => Raise e
      | Some (Return sl') => bind_keywords var_kw rest sl' extra
      | None =>
          if var_kw then bind_keywords var_kw rest sl (extra ++ [(k, v)])
          else Raise (TypeError (UnexpectedKeyword k))
      end
  end.

(** Parameters still empty take their default; those without one are
    reported together. *)
Fixpoint fill_defaults (ps : list (string * option pyval)) (sl : Slots)
  : list string * Kwargs :=
  match ps, sl with
  | (n, d) :: ps', (_, cur) :: sl' =>
      let r := fill_defaults ps' sl' in
      match cur, d with
      | Some v, _ => (fst r, (n, v) :: snd r)
      | None, Some v => (fst r, (n, v) :: snd r)
      | None, None => (n :: fst r, snd r)
      end
  | _, _ => ([], [])
  end.

(** Binding of a call with positional and keyword arguments, in the order
    the interpreter checks: keywords, then the number of positionals, then the missing
    parameters. *)
Definition bind_args (sg : Signature) (args : list pyval) (kwargs : Kwargs)
  : Result (Kwargs * Kwargs) :=
  let pos := bind_positional (params sg) args in
  rbind (bind_keywords (var_keyword sg) kwargs (fst pos) [])
    (fun r =>
       match snd pos with
       | _ :: _ =>
           Raise (TypeError (TooManyPositional (List.length args)
                                               (List.length (params sg))))
       | [] =>
           match fill_defaults (params sg) (fst r) with
           | ([], env) => Return (env, snd r)
           | (missing, _) => Raise (TypeError (MissingArguments missing))
           end
       end).

Fixpoint env_get (env : Kwargs) (k : string) : pyval :=
  match env with
  | [] => PyNone
  | (n, v) :: env' => if String.eqb n k then v else env_get env' k
  end.

End Py.
Import Py.

(** ** Datasets, the world and the loader monad *)

(** A label is a scalar count or a reference to a foreground-mask image. *)
Inductive Label : Type :=
| CountLabel (n : Z)
| MaskRef (path : string).

(** Spec, data model: a dataset is an ordered collection of
    (input, label, weight, id) tuples.  It is kept as the builder receives
    it, column by column: the inputs (image files), the labels, the
    weights and the ids; row i is made of the i-th entries.  The samples
    of a dataset are its inputs. *)
Record Dataset : Type := {
  ds_X : list string;
  ds_y : list Label;
  ds_w : list Z;
  ds_ids : list string
}.


(** What [load_dataset] hands back: the task names, the split datasets and
    the transformers that were applied. *)
Definition Loaded : Type := pyval * list Dataset * list pyval.

(** A parsed label table: column name and the int64 cells of the column. *)
Definition Table := list (string * list Z).

(** The second component of the [inputs] pair given to the image loader:
    an array of labels or the path of an archive of label images. *)
Inductive LabelsInput : Type :=
| LabelArray (ys : list Z)
| LabelFile (path : string).

(** The part of the machine the loaders touch: the files on disk (path and
    raw content, newest binding first), the log of the calls made to the
    network fetcher (url and destination directory, newest first) and the
    cached loads under the save directories. *)
Record World : Type := {
  files : list (string * string);
  fetched : list (string * string);
  cache : list (string * (list Dataset * list pyval))
}.

Definition M (A : Type) : Type := World -> Result A * World.

Definition ret {A} (a : A) : M A := fun w => (Return a, w).
Definition raise {A} (e : Exn) : M A := fun w => (Raise e, w).
Definition lift {A} (r : Result A) : M A := fun w => (r, w).
Definition bind {A B} (m : M A) (k : A -> M B) : M B :=
  fun w =>
    match m w with
    | (Return a, w') => k a w'
    | (Raise e, w') => (Raise e, w')
    end.

Declare Scope loader_scope.
Delimit Scope loader_scope with loader.
Notation "x <- m ;; k" := (bind m (fun x => k))
  (at level 61, m at next level, right associativity) : loader_scope.
Notation "m ;;; k" := (bind m (fun _ => k))
  (at level 61, right associativity) : loader_scope.
Local Open Scope loader_scope.

(** Everything outside the module that a load depends on and that is not
    decided by the module itself. *)
Class Environment : Type := {
  (** the network: the content behind a url, or the error of the attempt *)
  remote : string -> Result string;
  (** pandas.read_csv with a tab delimiter on the text of a file *)
  parse_tsv : string -> Result Table;
  (** the image files inside an archive with the given content *)
  unzip : string -> Result (list string);
  (** Python's [sorted] on file names *)
  sorted : list string -> list string;
  (** the process-wide data directory used when a directory is [None] *)
  default_dir : string;
  (** the splitter and transformer pipeline of the base loader *)
  split_and_transform : pyval -> pyval -> Dataset ->
                        Result (list Dataset * list pyval);
  (** the folder under the save directory a load is cached in *)
  save_folder : string -> string -> pyval -> pyval -> pyval -> string;
  (** whether the base loader writes these datasets to the cache *)
  cacheable : list Dataset -> bool;
  (** the text a value contributes to an f-string *)
  py_format : pyval -> string
}.

(** *** os.path *)

Fixpoint lookup_file (fs : list (string * string)) (p : string)
  : option string :=
  match fs with
  | [] => None
  | (q, c) :: fs' => if String.eqb q p then Some c else lookup_file fs' p
  end.

Definition os_path_exists (p : string) : M bool :=
  fun w => (Return (match lookup_file (files w) p with
                    | Some _ => true
                    | None => false
                    end), w).

Definition starts_with_sep (s : string) : bool :=
  match s with
  | String c _ => Ascii.eqb c "/"
  | EmptyString => false
  end.

Fixpoint ends_with_sep (s : string) : bool :=
  match s with
  | EmptyString => false
  | String c EmptyString => Ascii.eqb c "/"
  | String _ r => ends_with_sep r
  end.

(** posixpath.join on two components. *)
Definition os_path_join (a b : string) : string :=
  if starts_with_sep b then b
  else if match a with EmptyString => true | _ => ends_with_sep a end
       then a ++ b
       else a ++ "/" ++ b.

Definition read_file (p : string) : M string :=
  fun w => match lookup_file (files w) p with
           | Some c => (Return c, w)
           | None => (Raise (FileNotFoundError p), w)
           end.

(** *** The network fetcher *)

(** The text after the last slash of a url. *)
Fixpoint after_last_slash (s cur : string) : string :=
  match s with
  | EmptyString => cur
  | String c r =>
      if Ascii.eqb c "/" then after_last_slash r EmptyString
      else after_last_slash r (cur ++ String c EmptyString)
  end.

Definition url_basename (url : string) : string :=
  after_last_slash url EmptyString.

Section Loaders.
Context {env : Environment}.

(** Modelled from the spec: [download_url] of deepchem.utils.data_utils,
    which is not among the sources.  The spec gives the interface
    [download_url(url, dest_dir)] and says that it downloads a url to a
    local directory and that a failing network call aborts the load; the
    file is stored in [dest_dir] under the last component of the url (the
    directory layout data_dir/<DATASET>_v1_..._images.zip).  Every call is
    recorded in the fetch log, also the failing ones. *)
Definition download_url (url dest_dir : string) : M unit :=
  fun w =>
    let log := (url, dest_dir) :: fetched w in
    match remote url with
    | Raise e =>
        (Raise e, {| files := files w; fetched := log; cache := cache w |})
    | Return content =>
        (Return tt,
         {| files := (os_path_join dest_dir (url_basename url), content)
                       :: files w;
            fetched := log;
            cache := cache w |})
    end.

(** *** pandas and numpy *)

Definition pd_read_csv (path : string) : M Table :=
  text <- read_file path ;;
  lift (parse_tsv text).

(** [table[name]]: the column, or KeyError. *)
Fixpoint column (t : Table) (name : string) : Result (list Z) :=
  match t with
  | [] => Raise (KeyError name)
  | (n, cells) :: t' =>
      if String.eqb n name then Return cells else column t' name
  end.

(** Two's-complement wrap-around of int64 arithmetic. *)
Definition wrap64 (z : Z) : Z := (z + 2 ^ 63) mod 2 ^ 64 - 2 ^ 63.

(** The binary64 number nearest to the integer [n] (ties to even), which
    is again an integer: 53 bits of the magnitude are kept. *)
Definition int64_to_float64 (n : Z) : Z :=
  let a := Z.abs n in
  if a <? 2 ^ 53 then n
  else
    let k := Z.log2 a - 52 in
    let q := a / 2 ^ k in
    let r := a mod 2 ^ k in
    let half := 2 ^ (k - 1) in
    let q' := if r <? half then q
              else if half <? r then q + 1
              else if Z.even q then q else q + 1 in
    Z.sgn n * (q' * 2 ^ k).

(** One cell of [np.mean([a, b], axis=0, dtype=int)]: the sum is taken in
    int64, the division by the number of rows (2) is a float64 true
    division, and the quotient is cast back to int64, which drops the
    fraction (C conversion, toward zero).  Halving a binary64 integer is
    exact, so the cast sees [int64_to_float64 s / 2]. *)
Definition mean_cell (a b : Z) : Z :=
  let s := wrap64 (a + b) in
  Z.quot (int64_to_float64 s) 2.

Fixpoint mean_cells (a b : list Z) : list Z :=
  match a, b with
  | x :: a', y :: b' => mean_cell x y :: mean_cells a' b'
  | _, _ => []
  end.

(** [np.mean([a, b], axis=0, dtype=int)] on two columns; columns of
    different lengths do not form an array. *)
Definition np_mean_axis0_int (a b : list Z) : Result (list Z) :=
  if Nat.eqb (List.length a) (List.length b) then Return (mean_cells a b)
  else Raise (ValueError "inhomogeneous shape").

(** [np.full(n, v, dtype=int)] *)
Definition np_full (n : nat) (v : Z) : list Z := repeat v n.

(** *** The image dataset builder *)

Definition load_images (sorting : bool) (path : string) : M (list string) :=
  content <- read_file path ;;
  names <- lift (unzip content) ;;
  ret (if sorting then sorted names else names).

(** Modelled from the spec: [ImageLoader(sorting).create_dataset(inputs,
    in_memory)] of deepchem.data, which is not among the sources.  The
    spec: the image dataset builder wraps raw image files plus labels (or
    plus foreground/segmentation-mask files) into a dataset, an ordered
    collection of (input, label, weight, id) tuples; a label is a scalar
    count or a reference to a foreground-mask image.  The inputs are the
    images of the archive at the first path, sorted by name when
    [sorting] is set, and they are their own ids; the labels are the
    scalars of the array, or the references to the images of the archive
    at the label path; every label has the weight 1.  The spec states no
    check of the builder on the number of labels, and none is made. *)
Definition ImageLoader_create_dataset (sorting : bool)
           (input_file : string) (labels : LabelsInput) (in_memory : bool)
  : M Dataset :=
  images <- load_images sorting input_file ;;
  match labels with
  | LabelArray ys =>
      ret {| ds_X := images;
             ds_y := map CountLabel ys;
             ds_w := map (fun _ => 1) ys;
             ds_ids := images |}
  | LabelFile path =>
      masks <- load_images sorting path ;;
      ret {| ds_X := images;
             ds_y := map MaskRef masks;
             ds_w := map (fun _ => 1) masks;
             ds_ids := images |}
  end.

(** ** The loaders *)

Definition BBBC1_IMAGE_URL :=
  "https://data.broadinstitute.org/bbbc/BBBC001/BBBC001_v1_images_tif.zip".
Definition BBBC1_LABEL_URL :=
  "https://data.broadinstitute.org/bbbc/BBBC001/BBBC001_v1_counts.txt".
Definition BBBC1_TASKS := PyList [PyStr "cell-count"].

Definition BBBC2_IMAGE_URL :=
  "https://data.broadinstitute.org/bbbc/BBBC002/BBBC002_v1_images.zip".
Definition BBBC2_LABEL_URL :=
  "https://data.broadinstitute.org/bbbc/BBBC002/BBBC002_v1_counts.txt".
Definition BBBC2_TASKS := PyList [PyStr "cell-count"].

Definition BBBC4_IMAGE_URL :=
  "https://data.broadinstitute.org/bbbc/BBBC004/BBBC004_v1_000_images.zip".
Definition BBBC4_FOREGROUND_URL :=
  "https://data.broadinstitute.org/bbbc/BBBC004/BBBC004_v1_000_foreground.zip".
Definition BBBC4_TASKS := PyList [PyStr "cell-count"].

Inductive LoaderClass : Type :=
| _BBBC001Loader
| _BBBC002Loader
| _BBBC004_Segmentation_Loader
| _BBBC004_Loader.

(** The attributes of a loader object.  [overlap_probability] exists on
    the BBBC004 loaders only (it holds the two-digit code of the dict, not
    the float); the other classes never read it. *)
Record Loader : Type := {
  cls : LoaderClass;
  featurizer : pyval;
  splitter : pyval;
  transformers : pyval;
  tasks : pyval;
  data_dir : string;
  save_dir : string;
  overlap_probability : string
}.

(** *** Constructors *)

Definition class_name (c : LoaderClass) : string :=
  match c with
  | _BBBC001Loader => "_BBBC001Loader"
  | _BBBC002Loader => "_BBBC002Loader"
  | _BBBC004_Segmentation_Loader => "_BBBC004_Segmentation_Loader"
  | _BBBC004_Loader => "_BBBC004_Loader"
  end.

(** The object a class call creates before it runs [__init__] on it; it
    is the first positional argument of every [__init__]. *)
Definition new_object (c : LoaderClass) : pyval := PyObj (class_name c) [].

Definition _MolnetLoader_sig : Signature :=
  {| params := [("self", None); ("featurizer", None); ("splitter", None);
                ("transformer_generators", None); ("tasks", None);
                ("data_dir", None); ("save_dir", None)];
     var_keyword := true |}.

Definition directory (v : pyval) : Result string :=
  match v with
  | PyNone => Return default_dir
  | PyStr s => Return s
  | _ => Raise (TypeError NotAPath)
  end.

(** Modelled from the spec: [_MolnetLoader.__init__] of
    deepchem.molnet.load_function.molnet_loader, which is not among the
    sources.  The spec's loader configuration is a featurizer instance, a
    splitter selection, a list of transformer generators and the data and
    save directory paths, the directories falling back to a process-wide
    location when unset; the constructor calls of [load_bbbc001] and
    [load_bbbc002] reach it with exactly these, in the order featurizer,
    splitter, transformers, tasks, data_dir, save_dir, followed by the
    caller's keyword arguments.  [args] starts with the object itself.
    [c] and [code] are what the object already is when the base
    constructor runs: its class and, on a BBBC004 loader, the overlap code
    stored before the call. *)
Definition _MolnetLoader_init (c : LoaderClass) (code : string)
           (args : list pyval) (kwargs : Kwargs) : Result Loader :=
  rbind (bind_args _MolnetLoader_sig args kwargs) (fun b =>
  rbind (directory (env_get (fst b) "data_dir")) (fun d =>
  rbind (directory (env_get (fst b) "save_dir")) (fun s =>
  Return {| cls := c;
            featurizer := env_get (fst b) "featurizer";
            splitter := env_get (fst b) "splitter";
            transformers := env_get (fst b) "transformer_generators";
            tasks := env_get (fst b) "tasks";
            data_dir := d;
            save_dir := s;
            overlap_probability := code |}))).

Definition float64 (m : positive) (e : Z) : spec_float :=
  S754_finite false m e.

(** The literals 0.0, 0.15, 0.3, 0.45 and 0.6 as binary64 numbers. *)
Definition lit_0_0 : spec_float := S754_zero false.
Definition lit_0_15 : spec_float := float64 5404319552844595 (-55).
Definition lit_0_3 : spec_float := float64 5404319552844595 (-54).
Definition lit_0_45 : spec_float := float64 8106479329266893 (-54).
Definition lit_0_6 : spec_float := float64 5404319552844595 (-53).

Definition overlap_dict : list (spec_float * string) :=
  [(lit_0_0, "00"); (lit_0_15, "15"); (lit_0_3, "30"); (lit_0_45, "45");
   (lit_0_6, "60")].

(** Python's [==] between a value and a float key, as the dict uses it
    after hashing: numbers compare by value, everything else is unequal. *)
Definition eq_float_key (x : pyval) (k : spec_float) : bool :=
  match x with
  | PyFloat f => SFeqb f k
  | PyInt z => Z.eqb z 0 && SFeqb lit_0_0 k
  | PyBool b => negb b && SFeqb lit_0_0 k
  | _ => false
  end.

Fixpoint dict_find (x : pyval) (d : list (spec_float * string))
  : option string :=
  match d with
  | [] => None
  | (k, v) :: d' => if eq_float_key x k then Some v else dict_find x d'
  end.

(** [x in d.keys()] followed by [d[x]]; a list cannot be hashed. *)
Definition dict_lookup (x : pyval) (d : list (spec_float * string))
  : Result (option string) :=
  match x with
  | PyList _ => Raise (TypeError Unhashable)
  | _ => Return (dict_find x d)
  end.

Fixpoint join_with (sep : string) (l : list string) : string :=
  match l with
  | [] => EmptyString
  | [x] => x
  | x :: l' => x ++ sep ++ join_with sep l'
  end.

(** The text of [overlap_dict.keys()]. *)
Definition dict_keys_text : string :=
  "dict_keys([" ++
  join_with ", " (map (fun kv => py_format (PyFloat (fst kv))) overlap_dict)
  ++ "])".

Definition overlap_message (x : pyval) : string :=
  "Overlap_probability must be one of " ++ dict_keys_text ++ ", got "
  ++ py_format x.

(** [__init__(self, overlap_probability: float = 0.0, **kwargs)], the
    signature of both BBBC004 constructors. *)
Definition _BBBC004_init_sig : Signature :=
  {| params := [("self", None);
                ("overlap_probability", Some (PyFloat lit_0_0))];
     var_keyword := true |}.

(** [_BBBC004_Segmentation_Loader.__init__]: validation, the attribute,
    then [super().__init__()] without arguments. *)
Definition _BBBC004_Segmentation_Loader_init
           (self overlap_probability : pyval) : M Loader :=
  found <- lift (dict_lookup overlap_probability overlap_dict) ;;
  match found with
  | None => raise (ValueError (overlap_message overlap_probability))
  | Some code =>
      lift (_MolnetLoader_init _BBBC004_Segmentation_Loader code [self] [])
  end.

(** [_BBBC004_Loader.__init__], the same statements. *)
Definition _BBBC004_Loader_init (self overlap_probability : pyval)
  : M Loader :=
  found <- lift (dict_lookup overlap_probability overlap_dict) ;;
  match found with
  | None => raise (ValueError (overlap_message overlap_probability))
  | Some code => lift (_MolnetLoader_init _BBBC004_Loader code [self] [])
  end.

(** Instantiating a loader class: a new object is created and, in front
    of the call's arguments, bound to the signature of the class's
    [__init__] (the inherited one for BBBC001 and BBBC002), then the body
    of that [__init__] runs. *)
Definition construct (c : LoaderClass) (args : list pyval) (kwargs : Kwargs)
  : M Loader :=
  match c with
  | _BBBC001Loader | _BBBC002Loader =>
      lift (_MolnetLoader_init c EmptyString (new_object c :: args) kwargs)
  | _BBBC004_Segmentation_Loader =>
      b <- lift (bind_args _BBBC004_init_sig (new_object c :: args)
                           kwargs) ;;
      _BBBC004_Segmentation_Loader_init
        (env_get (fst b) "self") (env_get (fst b) "overlap_probability")
  | _BBBC004_Loader =>
      b <- lift (bind_args _BBBC004_init_sig (new_object c :: args)
                           kwargs) ;;
      _BBBC004_Loader_init
        (env_get (fst b) "self") (env_get (fst b) "overlap_probability")
  end.

(** *** create_dataset *)

Definition _BBBC001Loader_create_dataset (self : Loader) : M Dataset :=
  let dataset_file := os_path_join (data_dir self) "BBBC001_v1_images_tif.zip" in
  let labels_file := os_path_join (data_dir self) "BBBC001_v1_counts.txt" in
  have_images <- os_path_exists dataset_file ;;
  (if negb have_images
   then download_url BBBC1_IMAGE_URL (data_dir self) else ret tt) ;;;
  have_labels <- os_path_exists labels_file ;;
  (if negb have_labels
   then download_url BBBC1_LABEL_URL (data_dir self) else ret tt) ;;;
  labels_table <- pd_read_csv labels_file ;;
  count1 <- lift (column labels_table "manual count #1") ;;
  count2 <- lift (column labels_table "manual count #2") ;;
  labels <- lift (np_mean_axis0_int count1 count2) ;;
  ImageLoader_create_dataset true dataset_file (LabelArray labels) false.

Definition _BBBC002Loader_create_dataset (self : Loader) : M Dataset :=
  let dataset_file := os_path_join (data_dir self) "BBBC002_v1_images.zip" in
  let labels_file := os_path_join (data_dir self) "BBBC002_v1_counts.txt" in
  have_images <- os_path_exists dataset_file ;;
  (if negb have_images
   then download_url BBBC2_IMAGE_URL (data_dir self) else ret tt) ;;;
  have_labels <- os_path_exists labels_file ;;
  (if negb have_labels
   then download_url BBBC2_LABEL_URL (data_dir self) else ret tt) ;;;
  labels_table <- pd_read_csv labels_file ;;
  count1 <- lift (column labels_table "human counter 1 (Robert Lindquist)") ;;
  count2 <- lift (column labels_table "human counter #2 (Joohan Chang)") ;;
  labels <- lift (np_mean_axis0_int count1 count2) ;;
  ImageLoader_create_dataset true dataset_file (LabelArray labels) false.

Definition BBBC004_images_name (code : string) : string :=
  "BBBC004_v1_0" ++ code ++ "_images.zip".

Definition BBBC004_foreground_name (code : string) : string :=
  "BBBC004_v1_0" ++ code ++ "_foreground.zip".

Definition _BBBC004_Segmentation_Loader_create_dataset (self : Loader) : M Dataset :=
  let dataset_file :=
    os_path_join (data_dir self)
                 (BBBC004_images_name (overlap_probability self)) in
  let foreground_file :=
    os_path_join (data_dir self)
                 (BBBC004_foreground_name (overlap_probability self)) in
  have_images <- os_path_exists dataset_file ;;
  (if negb have_images
   then download_url BBBC4_IMAGE_URL (data_dir self) else ret tt) ;;;
  have_foreground <- os_path_exists foreground_file ;;
  (if negb have_foreground
   then download_url BBBC4_FOREGROUND_URL (data_dir self) else ret tt) ;;;
  ImageLoader_create_dataset false dataset_file (LabelFile foreground_file)
                             false.

Definition _BBBC004_Loader_create_dataset (self : Loader) : M Dataset :=
  let dataset_file :=
    os_path_join (data_dir self)
                 (BBBC004_images_name (overlap_probability self)) in
  have_images <- os_path_exists dataset_file ;;
  (if negb have_images
   then download_url BBBC4_IMAGE_URL (data_dir self) else ret tt) ;;;
  let labels := np_full 20 300 in
  ImageLoader_create_dataset false dataset_file (LabelArray labels) false.

(** Method dispatch on the class of [self]. *)
Definition create_dataset (self : Loader) : M Dataset :=
  match cls self with
  | _BBBC001Loader => _BBBC001Loader_create_dataset self
  | _BBBC002Loader => _BBBC002Loader_create_dataset self
  | _BBBC004_Segmentation_Loader => _BBBC004_Segmentation_Loader_create_dataset self
  | _BBBC004_Loader => _BBBC004_Loader_create_dataset self
  end.

(** *** load_dataset and the load functions *)

Fixpoint lookup_cache (c : list (string * (list Dataset * list pyval)))
         (folder : string) : option (list Dataset * list pyval) :=
  match c with
  | [] => None
  | (f, v) :: c' => if String.eqb f folder then Some v
                    else lookup_cache c' folder
  end.

Definition read_cache (folder : string)
  : M (option (list Dataset * list pyval)) :=
  fun w => (Return (lookup_cache (cache w) folder), w).

Definition write_cache (folder : string) (v : list Dataset * list pyval)
  : M unit :=
  fun w => (Return tt, {| files := files w; fetched := fetched w;
                          cache := (folder, v) :: cache w |}).

(** Modelled from the spec: [_MolnetLoader.load_dataset], which is not
    among the sources.  The spec: the loader orchestrates fetch, parse and
    build, then applies a splitter and transformer pipeline and optionally
    caches the resulting split datasets; derived datasets are rebuilt on
    each load unless a cached split under save_dir exists and reload is
    set, in which case the cached split is reused verbatim; the result is
    (task_names, datasets, transformers_applied).  The docstrings of the
    load functions: with reload, the first call for a particular
    featurizer and splitter caches the datasets to disk and later calls
    reload them. *)
Definition load_dataset (self : Loader) (name : string) (reload : bool)
  : M Loaded :=
  let folder := save_folder (save_dir self) name (featurizer self)
                            (splitter self) (transformers self) in
  hit <- (if reload then read_cache folder else ret None) ;;
  match hit with
  | Some cached => ret (tasks self, fst cached, snd cached)
  | None =>
      dataset <- create_dataset self ;;
      made <- lift (split_and_transform (splitter self) (transformers self)
                                        dataset) ;;
      (if reload && cacheable (fst made)
       then write_cache folder made else ret tt) ;;;
      ret (tasks self, fst made, snd made)
  end.

Definition UserDefinedFeaturizer (feature_fields : list pyval) : pyval :=
  PyObj "UserDefinedFeaturizer" [PyList feature_fields].

Definition load_bbbc001 (splitter transformers : pyval) (reload : bool)
           (data_dir save_dir : pyval) (kwargs : Kwargs) : M Loaded :=
  let featurizer := UserDefinedFeaturizer [] in
  loader <- construct _BBBC001Loader
                      [featurizer; splitter; transformers; BBBC1_TASKS;
                       data_dir; save_dir] kwargs ;;
  load_dataset loader "bbbc001" reload.

Definition load_bbbc002 (splitter transformers : pyval) (reload : bool)
           (data_dir save_dir : pyval) (kwargs : Kwargs) : M Loaded :=
  let featurizer := UserDefinedFeaturizer [] in
  loader <- construct _BBBC002Loader
                      [featurizer; splitter; transformers; BBBC2_TASKS;
                       data_dir; save_dir] kwargs ;;
  load_dataset loader "bbbc002" reload.

Definition load_bbbc004 (overlap_probability : pyval)
           (load_segmentation_mask : bool) (splitter transformers : pyval)
           (reload : bool) (data_dir save_dir : pyval) (kwargs : Kwargs)
  : M Loaded :=
  let featurizer := UserDefinedFeaturizer [] in
  loader <- (if load_segmentation_mask
             then construct _BBBC004_Segmentation_Loader
                            [featurizer; splitter; transformers; BBBC4_TASKS;
                             data_dir; save_dir] kwargs
             else construct _BBBC004_Loader
                            [featurizer; splitter; transformers; BBBC4_TASKS;
                             data_dir; save_dir] kwargs) ;;
  load_dataset loader "bbbc004" reload.

(** ** Vocabulary of the properties *)

(** A computation that only looks at the world. *)
Definition readonly {A} (m : M A) : Prop :=
  forall w r w', m w = (r, w') -> w' = w.

(** A computation that cannot succeed unless the file at [p] exists. *)
Definition needs {A} (p : string) (m : M A) : Prop :=
  forall w a w', m w = (Return a, w') -> lookup_file (files w) p <> None.

(** The two statements every [create_dataset] repeats per file:
    [if not os.path.exists(f): download_url(url=u, dest_dir=d)]. *)
Definition fetch_if_missing {A} (f u d : string) (k : M A) : M A :=
  have <- os_path_exists f ;;
  (if negb have then download_url u d else ret tt) ;;;
  k.

(** The world after a failed and after a completed fetch. *)
Definition logged (u d : string) (w : World) : World :=
  {| files := files w; fetched := (u, d) :: fetched w; cache := cache w |}.

Definition stored (u d c : string) (w : World) : World :=
  {| files := (os_path_join d (url_basename u), c) :: files w;
     fetched := (u, d) :: fetched w;
     cache := cache w |}.

(** Each [create_dataset] is a chain of such steps in front of a part that
    only reads. *)
Definition BBBC00x_labels_and_build (dataset_file labels_file : string)
           (name1 name2 : string) : M Dataset :=
  labels_table <- pd_read_csv labels_file ;;
  count1 <- lift (column labels_table name1) ;;
  count2 <- lift (column labels_table name2) ;;
  labels <- lift (np_mean_axis0_int count1 count2) ;;
  ImageLoader_create_dataset true dataset_file (LabelArray labels) false.

(** [t] occurs in [s]. *)
Definition contains (s t : string) : Prop :=
  exists a b : string, s = (a ++ t ++ b)%string.

(** The set {0.0, 0.15, 0.3, 0.45, 0.6} as binary64 data; a zero of
    either sign is the number 0.0. *)
Definition valid_overlap (f : spec_float) : Prop :=
  f = S754_zero false \/ f = S754_zero true \/ f = lit_0_15 \/
  f = lit_0_3 \/ f = lit_0_45 \/ f = lit_0_6.

(** The two loader classes of BBBC004. *)
Definition is_BBBC004 (c : LoaderClass) : Prop :=
  c = _BBBC004_Segmentation_Loader \/ c = _BBBC004_Loader.

(** The parameters of the base constructor after the object itself, all
    of them required. *)
Definition base_parameters : list string :=
  ["featurizer"; "splitter"; "transformer_generators"; "tasks";
   "data_dir"; "save_dir"].

(** The public load functions as one family, so that a property can
    range over every loader. *)
Inductive LoadFunction : Type :=
| Load_bbbc001
| Load_bbbc002
| Load_bbbc004 (overlap_probability : pyval) (load_segmentation_mask : bool).

Definition load (f : LoadFunction) (splitter transformers : pyval)
           (reload : bool) (data_dir save_dir : pyval) (kwargs : Kwargs)
  : M Loaded :=
  match f with
  | Load_bbbc001 =>
      load_bbbc001 splitter transformers reload data_dir save_dir kwargs
  | Load_bbbc002 =>
      load_bbbc002 splitter transformers reload data_dir save_dir kwargs
  | Load_bbbc004 overlap mask =>
      load_bbbc004 overlap mask splitter transformers reload data_dir
                   save_dir kwargs
  end.

(** A chain of fetch-if-missing steps in front of [k]. *)
Fixpoint fetch_all {A} (d : string) (l : list (string * string)) (k : M A)
  : M A :=
  match l with
  | [] => k
  | (f, u) :: l' => fetch_if_missing f u d (fetch_all d l' k)
  end.

(** The files a loader looks for, in the order of its checks, each with
    the url it fetches when the file is missing. *)
Definition required_files (self : Loader) : list (string * string) :=
  match cls self with
  | _BBBC001Loader =>
      [(os_path_join (data_dir self) "BBBC001_v1_images_tif.zip",
        BBBC1_IMAGE_URL);
       (os_path_join (data_dir self) "BBBC001_v1_counts.txt",
        BBBC1_LABEL_URL)]
  | _BBBC002Loader =>
      [(os_path_join (data_dir self) "BBBC002_v1_images.zip",
        BBBC2_IMAGE_URL);
       (os_path_join (data_dir self) "BBBC002_v1_counts.txt",
        BBBC2_LABEL_URL)]
  | _BBBC004_Segmentation_Loader =>
      [(os_path_join (data_dir self)
                     (BBBC004_images_name (overlap_probability self)),
        BBBC4_IMAGE_URL);
       (os_path_join (data_dir self)
                     (BBBC004_foreground_name (overlap_probability self)),
        BBBC4_FOREGROUND_URL)]
  | _BBBC004_Loader =>
      [(os_path_join (data_dir self)
                     (BBBC004_images_name (overlap_probability self)),
        BBBC4_IMAGE_URL)]
  end.

(** What a [create_dataset] does after its fetch steps. *)
Definition build_part (self : Loader) : M Dataset :=
  match cls self with
  | _BBBC001Loader =>
      BBBC00x_labels_and_build
        (os_path_join (data_dir self) "BBBC001_v1_images_tif.zip")
        (os_path_join (data_dir self) "BBBC001_v1_counts.txt")
        "manual count #1" "manual count #2"
  | _BBBC002Loader =>
      BBBC00x_labels_and_build
        (os_path_join (data_dir self) "BBBC002_v1_images.zip")
        (os_path_join (data_dir self) "BBBC002_v1_counts.txt")
        "human counter 1 (Robert Lindquist)"
        "human counter #2 (Joohan Chang)"
  | _BBBC004_Segmentation_Loader =>
      ImageLoader_create_dataset false
        (os_path_join (data_dir self)
                      (BBBC004_images_name (overlap_probability self)))
        (LabelFile
           (os_path_join (data_dir self)
              (BBBC004_foreground_name (overlap_probability self))))
        false
  | _BBBC004_Loader =>
      ImageLoader_create_dataset false
        (os_path_join (data_dir self)
                      (BBBC004_images_name (overlap_probability self)))
        (LabelArray (np_full 20 300)) false
  end.

(** The two loaders with annotator counts. *)
Definition has_annotators (c : LoaderClass) : Prop :=
  c = _BBBC001Loader \/ c = _BBBC002Loader.

Definition labels_file (self : Loader) : string :=
  os_path_join (data_dir self)
    (match cls self with
     | _BBBC001Loader => "BBBC001_v1_counts.txt"
     | _ => "BBBC002_v1_counts.txt"
     end).

Definition annotator_columns (c : LoaderClass) : string * string :=
  match c with
  | _BBBC001Loader => ("manual count #1", "manual count #2")
  | _ => ("human counter 1 (Robert Lindquist)",
          "human counter #2 (Joohan Chang)")
  end.

(** The average of two counts rounded down, and rounded toward zero. *)
Definition floor_mean (a b : Z) : Z := (a + b) / 2.
Definition trunc_mean (a b : Z) : Z := Z.quot (a + b) 2.

(** The label of the i-th sample. *)
Definition label_at (ds : Dataset) (i : nat) : option Label :=
  nth_error (ds_y ds) i.

(** [fetched_ok d l w w1]: going through the files of [l] in order from
    [w], every file was found or was fetched without error, and the world
    is then [w1]. *)
Inductive fetched_ok (d : string)
  : list (string * string) -> World -> World -> Prop :=
| fetched_nil w : fetched_ok d [] w w
| fetched_present f u l w w1 :
    lookup_file (files w) f <> None ->
    fetched_ok d l w w1 ->
    fetched_ok d ((f, u) :: l) w w1
| fetched_stored f u l w c w1 :
    lookup_file (files w) f = None ->
    remote u = Return c ->
    fetched_ok d l (stored u d c w) w1 ->
    fetched_ok d ((f, u) :: l) w w1.

(** The file a reading part opens first. *)
Definition first_read (self : Loader) : string :=
  match cls self with
  | _BBBC001Loader | _BBBC002Loader => labels_file self
  | _ => os_path_join (data_dir self)
                      (BBBC004_images_name (overlap_probability self))
  end.

(** [io_failure self w e w1]: during [create_dataset] from [w] an
    input/output step fails with [e], leaving the world [w1].  The step is
    a fetch of a missing file (network failure), the opening of a file
    that is not there, the parsing of the label file, or any other step of
    the reading part. *)
Inductive io_failure (self : Loader) : World -> Exn -> World -> Prop :=
| fails_network pre f u post w w1 e :
    required_files self = pre ++ (f, u) :: post ->
    fetched_ok (data_dir self) pre w w1 ->
    lookup_file (files w1) f = None ->
    remote u = Raise e ->
    io_failure self w e (logged u (data_dir self) w1)
| fails_missing_file w w1 :
    fetched_ok (data_dir self) (required_files self) w w1 ->
    lookup_file (files w1) (first_read self) = None ->
    io_failure self w (FileNotFoundError (first_read self)) w1
| fails_malformed_labels w w1 text e :
    has_annotators (cls self) ->
    fetched_ok (data_dir self) (required_files self) w w1 ->
    lookup_file (files w1) (labels_file self) = Some text ->
    parse_tsv text = Raise e ->
    io_failure self w e w1
| fails_reading w w1 e w2 :
    fetched_ok (data_dir self) (required_files self) w w1 ->
    build_part self w1 = (Raise e, w2) ->
    io_failure self w e w2.


(** The conversion of an integer to binary64 as the IEEE specification of
    the standard library computes it, and the integer a finite binary64
    number with a non-negative exponent stands for. *)
Definition float64_of_Z (n : Z) : spec_float :=
  binary_normalize 53 1024 n 0 false.

Definition Z_of_float64 (f : spec_float) : Z :=
  match f with
  | S754_finite s m e => (if s then -1 else 1) * (Z.pos m * 2 ^ e)
  | _ => 0
  end.

(** ** Vocabulary of the further properties *)

(** The entries of [l] whose file is not on disk in [w]. *)
Definition missing_files (w : World) (l : list (string * string))
  : list (string * string) :=
  filter (fun fu => match lookup_file (files w) (fst fu) with
                    | None => true
                    | Some _ => false
                    end) l.

(** The fetch calls for the entries of [l] as the log holds them, the
    newest first. *)
Definition fetch_calls (d : string) (l : list (string * string))
  : list (string * string) :=
  rev (map (fun fu => (snd fu, d)) l).

(** No file of the list is the place where the archive of an earlier
    entry of the list is stored. *)
Fixpoint independent (d : string) (l : list (string * string)) : Prop :=
  match l with
  | [] => True
  | (f, u) :: l' =>
      (forall g, In g (map fst l') -> g <> os_path_join d (url_basename u))
      /\ independent d l'
  end.

(** A loader object as a constructor leaves it: on a BBBC004 loader the
    overlap attribute is one of the codes of the dict. *)
Definition validated (self : Loader) : Prop :=
  is_BBBC004 (cls self) ->
  In (overlap_probability self) (map snd overlap_dict).



(** The images inside the archive stored at [path], in the order of the
    archive, when there is a readable archive at that path. *)
Definition archive_images (w : World) (path : string)
  : option (list string) :=
  match lookup_file (files w) path with
  | Some content =>
      match unzip content with
      | Return names => Some names
      | Raise _ => None
      end
  | None => None
  end.


End Loaders.

(** ** A sample environment

    One concrete network, parser and archive reader, on which the
    properties below are exercised. *)

Module Sample.

Definition image_names (n : nat) : list string :=
  map (fun i => ("cells_" ++ String (ascii_of_nat (65 + i)) ".tif")%string)
      (seq 0 n).

(** The network serves everything but the foreground archive. *)
Definition sample_remote (url : string) : Result string :=
  if String.eqb url BBBC4_FOREGROUND_URL
  then Raise (ExternalError "connection refused")
  else if String.eqb url BBBC1_LABEL_URL then Return "two rows"
  else if String.eqb url BBBC2_LABEL_URL then Return "one negative row"
  else if String.eqb url BBBC1_IMAGE_URL then Return "archive of 2"
  else if String.eqb url BBBC2_IMAGE_URL then Return "archive of 1"
  else Return "archive of 20".

Definition sample_parse_tsv (text : string) : Result Table :=
  if String.eqb text "two rows"
  then Return [("manual count #1", [3; 10]); ("manual count #2", [4; 13])]
  else if String.eqb text "one negative row"
  then Return [("human counter 1 (Robert Lindquist)", [-1]);
               ("human counter #2 (Joohan Chang)", [-2])]
  else Raise (ExternalError "no columns to parse").

Definition sample_unzip (content : string) : Result (list string) :=
  if String.eqb content "archive of 1" then Return (image_names 1)
  else if String.eqb content "archive of 2" then Return (image_names 2)
  else if String.eqb content "archive of 20" then Return (image_names 20)
  else Raise (ExternalError "not a zip file").

Definition sample_format (v : pyval) : string :=
  match v with
  | PyFloat f =>
      if SFeqb f lit_0_0 then "0.0"
      else if SFeqb f lit_0_15 then "0.15"
      else if SFeqb f lit_0_3 then "0.3"
      else if SFeqb f lit_0_45 then "0.45"
      else if SFeqb f lit_0_6 then "0.6"
      else "0.5"
  | _ => "None"
  end.

Definition environment : Environment :=
  {| remote := sample_remote;
     parse_tsv := sample_parse_tsv;
     unzip := sample_unzip;
     sorted := fun names => names;
     default_dir := "/data";
     split_and_transform := fun _ _ dataset => Return ([dataset], []);
     save_folder := fun dir name _ _ _ => (dir ++ "/" ++ name)%string;
     cacheable := fun _ => true;
     py_format := sample_format |}.

Definition empty_world : World :=
  {| files := []; fetched := []; cache := [] |}.


Definition loader (c : LoaderClass) (code : string) : Loader :=
  {| cls := c;
     featurizer := UserDefinedFeaturizer [];
     splitter := PyStr "index";
     transformers := PyList [];
     tasks := PyList [PyStr "cell-count"];
     data_dir := "/data";
     save_dir := "/data";
     overlap_probability := code |}.

(** The binary64 number 0.5, which is not an overlap probability. *)
Definition lit_0_5 : spec_float := float64 4503599627370496 (-53).

End Sample.

(** C4 as the specification words it: every label is the average of the
    row's two counts rounded down. *)
Definition labels_are_floor_means : Prop :=
  forall (env : Environment) self w ds w' text table col1 col2 i a b,
    has_annotators (cls self) ->
    create_dataset self w = (Return ds, w') ->
    lookup_file (files w') (labels_file self) = Some text ->
    parse_tsv text = Return table ->
    column table (fst (annotator_columns (cls self))) = Return col1 ->
    column table (snd (annotator_columns (cls self))) = Return col2 ->
    nth_error col1 i = Some a -> nth_error col2 i = Some b ->
    label_at ds i = Some (CountLabel (floor_mean a b)).

(** ** The sequence generator of the SeqToSeq tests
    (deepchem/models/tensorgraph/tests/test_seqtoseq.py) *)

(** What a generator has produced when its consumer has run it to the
    end: the items yielded, the exception that ended it if one did, and
    the number of random draws made so far. *)
Record Generated : Type := {
  yielded : list (list Z * list Z);
  stopped : option Exn;
  drawn_after : nat
}.

Section Sequences.

(** The raw numbers behind numpy's global generator, by draw number.  The
    state of the generator is the number of draws made so far. *)
Variable entropy : nat -> Z.

(** [np.random.randint(low, high)]: an int64 of the half-open range.
    Bounds outside int64 and an empty range are ValueErrors, checked in
    this order, and no draw is made then.  [np.random.randint(10)] is
    [np.random.randint(0, 10)]. *)
Definition np_random_randint (low high : Z) (drawn : nat)
  : Result Z * nat :=
  if low <? - 2 ^ 63
  then (Raise (ValueError "low is out of bounds for int64"), drawn)
  else if 2 ^ 63 <? high
  then (Raise (ValueError "high is out of bounds for int64"), drawn)
  else if high <=? low
  then (Raise (ValueError "low >= high"), drawn)
  else (Return (low + entropy drawn mod (high - low)), S drawn).

(** [[np.random.randint(10) for x in range(k)]] *)
Fixpoint random_tokens (k : nat) (drawn : nat) : Result (list Z) * nat :=
  match k with
  | O => (Return [], drawn)
  | S k' =>
      match np_random_randint 0 10 drawn with
      | (Raise e, d1) => (Raise e, d1)
      | (Return t, d1) =>
          match random_tokens k' d1 with
          | (Raise e, d2) => (Raise e, d2)
          | (Return rest, d2) => (Return (t :: rest), d2)
          end
      end
  end.

(** The body of [for i in range(num_sequences)], for the iterations that
    remain. *)
Fixpoint generate_loop (sequence_length : Z) (remaining : nat)
         (drawn : nat) : Generated :=
  match remaining with
  | O => {| yielded := []; stopped := None; drawn_after := drawn |}
  | S remaining' =>
      match np_random_randint 1 (sequence_length + 1) drawn with
      | (Raise e, d1) =>
          {| yielded := []; stopped := Some e; drawn_after := d1 |}
      | (Return k, d1) =>
          match random_tokens (Z.to_nat k) d1 with
          | (Raise e, d2) =>
              {| yielded := []; stopped := Some e; drawn_after := d2 |}
          | (Return seq, d2) =>
              let rest := generate_loop sequence_length remaining' d2 in
              {| yielded := (seq, seq) :: yielded rest;
                 stopped := stopped rest;
                 drawn_after := drawn_after rest |}
          end
      end
  end.

Definition generate_sequences (sequence_length num_sequences : Z)
           (drawn : nat) : Generated :=
  generate_loop sequence_length (Z.to_nat num_sequences) drawn.

End Sequences.

(** The number of tokens in a list of yielded pairs. *)
Definition total_tokens (items : list (list Z * list Z)) : nat :=
  fold_right (fun p n => (List.length (fst p) + n)%nat) 0%nat items.

(** A sample of raw numbers. *)
Definition sample_entropy (i : nat) : Z := Z.of_nat (i * i * 7 + 3 * i + 5).

(** The BBBC002 raw files on disk, the label file carrying the columns of
    BBBC001. *)
Definition mislabelled_world : World :=
  {| files := [("/data/BBBC002_v1_images.zip", "archive of 2");
               ("/data/BBBC002_v1_counts.txt", "two rows")];
     fetched := [];
     cache := [] |}.








(** * Properties *)

(** ** The definitions on small inputs *)

Example bind_args_too_many :
  bind_args _BBBC004_init_sig
            [new_object _BBBC004_Loader; PyNone; PyNone] []
  = Raise (TypeError (TooManyPositional 3 2)).
Proof. reflexivity. Qed.

Example bind_args_default :
  bind_args _BBBC004_init_sig [new_object _BBBC004_Loader]
            [("verbose", PyBool true)]
  = Return ([("self", new_object _BBBC004_Loader);
             ("overlap_probability", PyFloat lit_0_0)],
            [("verbose", PyBool true)]).
Proof. reflexivity. Qed.

Example bind_args_by_keyword :
  bind_args _BBBC004_init_sig [new_object _BBBC004_Loader]
            [("overlap_probability", PyInt 0)]
  = Return ([("self", new_object _BBBC004_Loader);
             ("overlap_probability", PyInt 0)], []).
Proof. reflexivity. Qed.

Example bind_args_twice :
  bind_args _BBBC004_init_sig [new_object _BBBC004_Loader; PyNone]
            [("overlap_probability", PyNone)]
  = Raise (TypeError (MultipleValues "overlap_probability")).
Proof. reflexivity. Qed.

Example bind_args_self_by_keyword :
  bind_args _BBBC004_init_sig [new_object _BBBC004_Loader]
            [("self", PyInt 1)]
  = Raise (TypeError (MultipleValues "self")).
Proof. reflexivity. Qed.

Example bind_args_missing :
  bind_args _MolnetLoader_sig
            [new_object _BBBC001Loader; PyNone; PyNone] [("tasks", PyNone)]
  = Raise (TypeError (MissingArguments
                        ["transformer_generators"; "data_dir"; "save_dir"])).
Proof. reflexivity. Qed.

Example os_path_join_plain :
  os_path_join "/data" "BBBC001_v1_counts.txt"
  = "/data/BBBC001_v1_counts.txt".
Proof. reflexivity. Qed.

Example os_path_join_trailing_slash :
  os_path_join "/data/" "BBBC001_v1_counts.txt"
  = "/data/BBBC001_v1_counts.txt".
Proof. reflexivity. Qed.

Example os_path_join_absolute : os_path_join "/data" "/tmp/x" = "/tmp/x".
Proof. reflexivity. Qed.

Example url_basename_labels :
  url_basename BBBC1_LABEL_URL = "BBBC001_v1_counts.txt".
Proof. reflexivity. Qed.

Example dict_find_members :
  map (fun x => dict_find x overlap_dict)
      [PyFloat lit_0_45; PyFloat (S754_zero true); PyInt 0; PyBool false;
       PyInt 1; PyFloat S754_nan; PyStr "0.3"; PyNone]
  = [Some "45"; Some "00"; Some "00"; Some "00"; None; None; None; None].
Proof. reflexivity. Qed.

Example mean_cell_rows :
  map (fun r => mean_cell (fst r) (snd r))
      [(3, 4); (10, 13); (0, 0); (-1, -2); (2 ^ 62, 2 ^ 62)]
  = [3; 11; 0; -1; - 2 ^ 62].
Proof. reflexivity. Qed.

(** The integer rounding of [int64_to_float64] agrees with the binary64
    conversion of the IEEE specification where rounding happens. *)
Example int64_to_float64_rounds :
  map (fun n => Z_of_float64 (float64_of_Z n))
      [2 ^ 53; 2 ^ 53 + 1; 2 ^ 53 + 3; 2 ^ 54 + 2; 2 ^ 54 + 6;
       2 ^ 60 + 2 ^ 7 + 1; - (2 ^ 53 + 3); 2 ^ 63 - 1; - 2 ^ 63]
  = map int64_to_float64
        [2 ^ 53; 2 ^ 53 + 1; 2 ^ 53 + 3; 2 ^ 54 + 2; 2 ^ 54 + 6;
         2 ^ 60 + 2 ^ 7 + 1; - (2 ^ 53 + 3); 2 ^ 63 - 1; - 2 ^ 63].
Proof. vm_compute. reflexivity. Qed.

(** Beyond 2^53 the sum is rounded before it is halved. *)
Example mean_cell_beyond_binary64 :
  mean_cell (2 ^ 54 + 2) 0 = 2 ^ 53
  /\ floor_mean (2 ^ 54 + 2) 0 = 2 ^ 53 + 1.
Proof. split; reflexivity. Qed.

Section Properties.
Context {env : Environment}.

(** ** Reasoning about the loader monad *)

Lemma bind_Return {A B} (m : M A) (k : A -> M B) w b w' :
  bind m k w = (Return b, w') ->
  exists a w1, m w = (Return a, w1) /\ k a w1 = (Return b, w').
Proof.
  unfold bind. destruct (m w) as [[a|e] w1]; intros H.
  - exists a, w1. split; [reflexivity | exact H].
  - discriminate H.
Qed.

Lemma bind_step {A B} (m : M A) (k : A -> M B) w a w1 :
  m w = (Return a, w1) -> bind m k w = k a w1.
Proof. unfold bind. intros ->. reflexivity. Qed.

Lemma bind_fail {A B} (m : M A) (k : A -> M B) w e w1 :
  m w = (Raise e, w1) -> bind m k w = (Raise e, w1).
Proof. unfold bind. intros ->. reflexivity. Qed.

Lemma readonly_ret {A} (a : A) : readonly (ret a).
Proof. intros w r w' H. inversion H. reflexivity. Qed.

Lemma readonly_lift {A} (r : Result A) : readonly (lift r).
Proof. intros w r' w' H. inversion H. reflexivity. Qed.

Lemma readonly_raise {A} (e : Exn) : readonly (@raise A e).
Proof. intros w r' w' H. inversion H. reflexivity. Qed.

Lemma readonly_read_file p : readonly (read_file p).
Proof.
  intros w r w'. unfold read_file.
  destruct (lookup_file (files w) p); intros H; inversion H; reflexivity.
Qed.

Lemma readonly_bind {A B} (m : M A) (k : A -> M B) :
  readonly m -> (forall a, readonly (k a)) -> readonly (bind m k).
Proof.
  intros Hm Hk w r w'. unfold bind.
  destruct (m w) as [[a|e] w1] eqn:E; intros H.
  - apply Hm in E. subst w1. exact (Hk a _ _ _ H).
  - apply Hm in E. inversion H. congruence.
Qed.

Lemma needs_read_file p : needs p (read_file p).
Proof.
  intros w a w'. unfold read_file.
  destruct (lookup_file (files w) p); intros H; [discriminate | inversion H].
Qed.

Lemma needs_bind_l {A B} p (m : M A) (k : A -> M B) :
  needs p m -> needs p (bind m k).
Proof.
  intros Hm w b w' H. apply bind_Return in H as (a & w1 & H1 & _).
  exact (Hm _ _ _ H1).
Qed.

Lemma needs_bind_r {A B} p (m : M A) (k : A -> M B) :
  readonly m -> (forall a, needs p (k a)) -> needs p (bind m k).
Proof.
  intros Hm Hk w b w' H. apply bind_Return in H as (a & w1 & H1 & H2).
  apply Hm in H1. subst w1. exact (Hk a _ _ _ H2).
Qed.

Create HintDb loader discriminated.
#[local] Hint Resolve readonly_ret readonly_lift readonly_raise
  readonly_read_file needs_read_file : loader.

Lemma readonly_pd_read_csv p : readonly (pd_read_csv p).
Proof.
  unfold pd_read_csv. apply readonly_bind; auto with loader.
Qed.

Lemma needs_pd_read_csv p : needs p (pd_read_csv p).
Proof. unfold pd_read_csv. apply needs_bind_l. auto with loader. Qed.

Lemma readonly_load_images s p : readonly (load_images s p).
Proof.
  unfold load_images.
  repeat (apply readonly_bind; [auto with loader | intro]).
  auto with loader.
Qed.

Lemma needs_load_images s p : needs p (load_images s p).
Proof. unfold load_images. apply needs_bind_l. auto with loader. Qed.

Lemma readonly_ImageLoader s f l m :
  readonly (ImageLoader_create_dataset s f l m).
Proof.
  unfold ImageLoader_create_dataset.
  apply readonly_bind; [apply readonly_load_images | intro].
  destruct l; [auto with loader |].
  apply readonly_bind; [apply readonly_load_images | intro].
  auto with loader.
Qed.

Lemma needs_ImageLoader s f l m :
  needs f (ImageLoader_create_dataset s f l m).
Proof.
  unfold ImageLoader_create_dataset. apply needs_bind_l.
  apply needs_load_images.
Qed.

Lemma needs_ImageLoader_masks s f p m :
  needs p (ImageLoader_create_dataset s f (LabelFile p) m).
Proof.
  unfold ImageLoader_create_dataset.
  apply needs_bind_r; [apply readonly_load_images | intro].
  apply needs_bind_l. apply needs_load_images.
Qed.

(** *** The fetch-if-missing step *)

Lemma fetch_present {A} f u d (k : M A) w :
  lookup_file (files w) f <> None -> fetch_if_missing f u d k w = k w.
Proof.
  intros H. unfold fetch_if_missing, bind, os_path_exists.
  destruct (lookup_file (files w) f); [reflexivity | contradiction].
Qed.

Lemma fetch_absent_fail {A} f u d (k : M A) w e :
  lookup_file (files w) f = None -> remote u = Raise e ->
  fetch_if_missing f u d k w = (Raise e, logged u d w).
Proof.
  intros H R. unfold fetch_if_missing, bind, os_path_exists, download_url.
  rewrite H. simpl. rewrite R. reflexivity.
Qed.

Lemma fetch_absent_ok {A} f u d (k : M A) w c :
  lookup_file (files w) f = None -> remote u = Return c ->
  fetch_if_missing f u d k w = k (stored u d c w).
Proof.
  intros H R. unfold fetch_if_missing, bind, os_path_exists, download_url.
  rewrite H. simpl. rewrite R. reflexivity.
Qed.

Lemma fetch_Return {A} f u d (k : M A) w a w' :
  fetch_if_missing f u d k w = (Return a, w') ->
  exists w1, k w1 = (Return a, w') /\ cache w1 = cache w.
Proof.
  intros H.
  destruct (lookup_file (files w) f) as [c0|] eqn:E.
  - rewrite fetch_present in H by congruence. exists w. auto.
  - destruct (remote u) as [c|e] eqn:R.
    + rewrite (fetch_absent_ok _ _ _ _ _ c E R) in H.
      exists (stored u d c w). auto.
    + rewrite (fetch_absent_fail _ _ _ _ _ e E R) in H. discriminate.
Qed.

(** Every [create_dataset] is its chain of fetch steps in front of its
    reading part. *)
Lemma create_dataset_steps self :
  create_dataset self
  = fetch_all (data_dir self) (required_files self) (build_part self).
Proof.
  unfold create_dataset, required_files, build_part.
  destruct (cls self); reflexivity.
Qed.

Lemma readonly_labels_and_build f l n1 n2 :
  readonly (BBBC00x_labels_and_build f l n1 n2).
Proof.
  unfold BBBC00x_labels_and_build.
  apply readonly_bind; [apply readonly_pd_read_csv | intro].
  do 3 (apply readonly_bind; [auto with loader | intro]).
  apply readonly_ImageLoader.
Qed.

Lemma needs_labels_of_build f l n1 n2 :
  needs l (BBBC00x_labels_and_build f l n1 n2).
Proof.
  unfold BBBC00x_labels_and_build. apply needs_bind_l.
  apply needs_pd_read_csv.
Qed.

Lemma needs_images_of_build f l n1 n2 :
  needs f (BBBC00x_labels_and_build f l n1 n2).
Proof.
  unfold BBBC00x_labels_and_build.
  apply needs_bind_r; [apply readonly_pd_read_csv | intro].
  do 3 (apply needs_bind_r; [auto with loader | intro]).
  apply needs_ImageLoader.
Qed.

Lemma readonly_build_part self : readonly (build_part self).
Proof.
  unfold build_part. destruct (cls self);
    first [apply readonly_labels_and_build | apply readonly_ImageLoader].
Qed.

(** The reading part cannot succeed without every required file. *)
Lemma needs_build_part self f :
  In f (map fst (required_files self)) -> needs f (build_part self).
Proof.
  unfold required_files, build_part. destruct (cls self); simpl;
    intros [<- | [<- | []]] || intros [<- | []];
    first [apply needs_images_of_build | apply needs_labels_of_build
          | apply needs_ImageLoader | apply needs_ImageLoader_masks].
Qed.

Lemma fetch_all_Return {A} d l (k : M A) : forall w a w',
  fetch_all d l k w = (Return a, w') ->
  exists w1, k w1 = (Return a, w') /\ cache w1 = cache w.
Proof.
  induction l as [|[f u] l IH]; simpl; intros w a w' H.
  - exists w. auto.
  - apply fetch_Return in H as (w1 & H & C1).
    apply IH in H as (w2 & H & C2). exists w2. split; [exact H | congruence].
Qed.

Lemma fetch_all_present {A} d l (k : M A) w :
  (forall f, In f (map fst l) -> lookup_file (files w) f <> None) ->
  fetch_all d l k w = k w.
Proof.
  induction l as [|[f u] l IH]; simpl; intros H; [reflexivity |].
  rewrite fetch_present by (apply H; auto). apply IH.
  intros g Hg. apply H. auto.
Qed.

(** Once a [create_dataset] has succeeded, running it again in the world
    it left behind fetches nothing and gives the same dataset. *)
Lemma create_dataset_again self w ds w' :
  create_dataset self w = (Return ds, w') ->
  create_dataset self w' = (Return ds, w') /\ cache w' = cache w.
Proof.
  rewrite create_dataset_steps. intros H.
  apply fetch_all_Return in H as (w1 & H & C).
  pose proof (readonly_build_part _ _ _ _ H) as ->.
  split; [| exact C].
  rewrite fetch_all_present; [exact H |].
  intros f Hf. exact (needs_build_part _ _ Hf _ _ _ H).
Qed.

(** ** The call protocol and the BBBC004 constructors *)

Lemma set_slot_raises k v sl e :
  set_slot k v sl = Some (Raise e) -> e = TypeError (MultipleValues k).
Proof.
  induction sl as [|[n cur] sl IH]; simpl; [discriminate |].
  destruct (String.eqb n k).
  - destruct cur; intros H; inversion H; reflexivity.
  - destruct (set_slot k v sl) as [[s|e']|]; intros H; inversion H.
    subst. apply IH. reflexivity.
Qed.

Lemma bind_keywords_raises vk kwargs : forall sl extra e,
  bind_keywords vk kwargs sl extra = Raise e -> exists k, e = TypeError k.
Proof.
  induction kwargs as [|[k v] rest IH]; simpl; intros sl extra e H;
    [discriminate |].
  destruct (set_slot k v sl) as [[sl'|e']|] eqn:E.
  - eapply IH; eauto.
  - inversion H; subst. apply set_slot_raises in E. eauto.
  - destruct vk; [eapply IH; eauto | inversion H; eauto].
Qed.

(** A call with more positional arguments than parameters is a TypeError,
    whatever its keyword arguments are. *)
Lemma bind_args_excess sg args kwargs x rest :
  snd (bind_positional (params sg) args) = x :: rest ->
  exists k, bind_args sg args kwargs = Raise (TypeError k).
Proof.
  intros E. unfold bind_args, rbind.
  destruct (bind_keywords _ kwargs _ []) as [r|e] eqn:K.
  - rewrite E. eauto.
  - apply bind_keywords_raises in K as (k & ->). eauto.
Qed.

(** The BBBC004 constructors cannot take the six positional arguments of
    the base constructor. *)
Lemma construct_BBBC004_six_arguments c a1 a2 a3 a4 a5 a6 kwargs w :
  is_BBBC004 c ->
  exists k,
    construct c [a1; a2; a3; a4; a5; a6] kwargs w = (Raise (TypeError k), w).
Proof.
  intros [-> | ->]; cbn [construct];
    match goal with
    | |- context [bind_args _ (?obj :: _) _] =>
        destruct (bind_args_excess _BBBC004_init_sig
                    [obj; a1; a2; a3; a4; a5; a6] kwargs
                    a2 [a3; a4; a5; a6] eq_refl) as (k & E)
    end;
    exists k; unfold bind, lift; rewrite E; reflexivity.
Qed.

(** C2. Every call of [load_bbbc004] raises a TypeError before any
    dataset is built and with the world untouched: the constructor it
    selects receives six positional arguments and accepts one.  With no
    extra keyword arguments the error is the excess of positionals
    (counted with the object itself, as the interpreter does: seven given,
    two allowed).  The caller's overlap_probability never reaches
    the constructor: the outcome is the same for any two values of it. *)
Theorem load_bbbc004_always_type_error :
  forall overlap seg sp tr reload dd sd kwargs w,
    (exists k,
        load_bbbc004 overlap seg sp tr reload dd sd kwargs w
        = (Raise (TypeError k), w))
    /\ load_bbbc004 overlap seg sp tr reload dd sd [] w
       = (Raise (TypeError (TooManyPositional 7 2)), w)
    /\ (forall overlap',
           load_bbbc004 overlap' seg sp tr reload dd sd kwargs w
           = load_bbbc004 overlap seg sp tr reload dd sd kwargs w).
Proof.
  intros overlap seg sp tr reload dd sd kwargs w. split; [| split].
  - unfold load_bbbc004.
    destruct seg.
    + destruct (construct_BBBC004_six_arguments _BBBC004_Segmentation_Loader
                  (UserDefinedFeaturizer []) sp tr BBBC4_TASKS dd sd
                  kwargs w) as (k & E);
        [left; reflexivity |].
      exists k. apply bind_fail. exact E.
    + destruct (construct_BBBC004_six_arguments _BBBC004_Loader
                  (UserDefinedFeaturizer []) sp tr BBBC4_TASKS dd sd
                  kwargs w) as (k & E);
        [right; reflexivity |].
      exists k. apply bind_fail. exact E.
  - destruct seg; reflexivity.
  - intros; reflexivity.
Qed.

Lemma SFeqb_finite_key f m e :
  SFeqb f (float64 m e) = true -> f = float64 m e.
Proof.
  unfold SFeqb, float64. destruct f as [s|s| |s m' e']; simpl;
    try discriminate.
  - destruct s; discriminate.
  - destruct s; [discriminate |].
    change (PosDef.Pos.compare_cont Eq m' m) with (Pos.compare m' m).
    destruct (Z.compare e' e) eqn:Ee; try discriminate.
    destruct (Pos.compare m' m) eqn:Em; try discriminate.
    apply Z.compare_eq in Ee. apply Pos.compare_eq in Em. subst.
    reflexivity.
Qed.

Lemma SFeqb_zero_key f :
  SFeqb f lit_0_0 = true -> f = S754_zero false \/ f = S754_zero true.
Proof.
  unfold SFeqb, lit_0_0. destruct f as [s|s| |s m' e']; simpl;
    try discriminate; destruct s; auto; discriminate.
Qed.

(** The dict accepts exactly the floats of the valid set. *)
Lemma dict_find_float f :
  dict_find (PyFloat f) overlap_dict = None <-> ~ valid_overlap f.
Proof.
  unfold valid_overlap. split.
  - intros H V.
    destruct V as [-> | [-> | [-> | [-> | [-> | ->]]]]]; discriminate H.
  - intros H. unfold overlap_dict, dict_find, eq_float_key.
    destruct (SFeqb f lit_0_0) eqn:E0.
    { apply SFeqb_zero_key in E0. tauto. }
    destruct (SFeqb f lit_0_15) eqn:E1.
    { apply SFeqb_finite_key in E1. tauto. }
    destruct (SFeqb f lit_0_3) eqn:E2.
    { apply SFeqb_finite_key in E2. tauto. }
    destruct (SFeqb f lit_0_45) eqn:E3.
    { apply SFeqb_finite_key in E3. tauto. }
    destruct (SFeqb f lit_0_6) eqn:E4.
    { apply SFeqb_finite_key in E4. tauto. }
    reflexivity.
Qed.

Lemma append_assoc (a b c : string) :
  ((a ++ b) ++ c = a ++ (b ++ c))%string.
Proof. induction a; simpl; [reflexivity | now rewrite IHa]. Qed.

Lemma append_nil_r (a : string) : (a ++ "" = a)%string.
Proof. induction a; simpl; [reflexivity | now rewrite IHa]. Qed.

Lemma contains_refl (t : string) : contains t t.
Proof. exists EmptyString, EmptyString. simpl. now rewrite append_nil_r. Qed.

Lemma contains_app_r (a t u : string) :
  contains t u -> contains (a ++ t) u.
Proof.
  intros (x & y & ->). exists (a ++ x)%string, y.
  now rewrite append_assoc.
Qed.

Lemma contains_app_l (t b u : string) :
  contains t u -> contains (t ++ b) u.
Proof.
  intros (x & y & ->). exists x, (y ++ b)%string.
  now rewrite !append_assoc.
Qed.

Lemma contains_join sep (l : list string) x :
  In x l -> contains (join_with sep l) x.
Proof.
  induction l as [|y l IH]; simpl; [tauto |].
  intros [-> | H].
  - destruct l; [apply contains_refl | apply contains_app_l, contains_refl].
  - destruct l as [|z l]; [destruct H |].
    apply contains_app_r, contains_app_r, IH, H.
Qed.

(** C5. An overlap probability outside the valid set makes either
    BBBC004 constructor raise its ValueError at once, whether the value is
    passed by position or by keyword: the world comes back as it was (no
    file touched, nothing fetched), and the message contains the text of
    the offending value and the text of the dict's keys, which lists every
    member of the valid set. *)
Theorem invalid_overlap_fails_before_io :
  forall c f w,
    is_BBBC004 c -> ~ valid_overlap f ->
    construct c [PyFloat f] [] w
    = (Raise (ValueError (overlap_message (PyFloat f))), w)
    /\ construct c [] [("overlap_probability", PyFloat f)] w
       = (Raise (ValueError (overlap_message (PyFloat f))), w)
    /\ contains (overlap_message (PyFloat f)) (py_format (PyFloat f))
    /\ contains (overlap_message (PyFloat f)) dict_keys_text
    /\ Forall (fun k => contains dict_keys_text (py_format (PyFloat k)))
              (map fst overlap_dict).
Proof.
  intros c f w Hc Hf. apply dict_find_float in Hf.
  assert (Hseg : forall self,
             _BBBC004_Segmentation_Loader_init self (PyFloat f) w
             = (Raise (ValueError (overlap_message (PyFloat f))), w)).
  { intros self.
    unfold _BBBC004_Segmentation_Loader_init, bind, lift, dict_lookup.
    rewrite Hf. reflexivity. }
  assert (Hcount : forall self,
             _BBBC004_Loader_init self (PyFloat f) w
             = (Raise (ValueError (overlap_message (PyFloat f))), w)).
  { intros self. unfold _BBBC004_Loader_init, bind, lift, dict_lookup.
    rewrite Hf. reflexivity. }
  repeat split.
  - destruct Hc as [-> | ->]; [apply Hseg | apply Hcount].
  - destruct Hc as [-> | ->]; [apply Hseg | apply Hcount].
  - unfold overlap_message.
    apply contains_app_r, contains_app_r, contains_app_r, contains_refl.
  - unfold overlap_message.
    apply contains_app_r, contains_app_l, contains_refl.
  - apply Forall_forall. intros k Hk. unfold dict_keys_text.
    apply contains_app_r, contains_app_l, contains_join.
    rewrite in_map_iff in Hk. destruct Hk as (kv & <- & Hin).
    apply in_map_iff. exists kv. split; [reflexivity | exact Hin].
Qed.

(** C1, at the members of the valid set.  The validation passes and the
    constructor goes on to [super().__init__()], a call without arguments
    to a constructor whose six parameters are all required: constructing
    either BBBC004 loader with a valid overlap probability ends in a
    TypeError.  Through [load_bbbc004] the construction fails as well,
    before the validation is reached. *)
Theorem valid_overlap_construction_raises :
  forall c f w,
    is_BBBC004 c -> In f (map fst overlap_dict) ->
    construct c [PyFloat f] [] w
    = (Raise (TypeError (MissingArguments base_parameters)), w)
    /\ construct c [] [("overlap_probability", PyFloat f)] w
       = (Raise (TypeError (MissingArguments base_parameters)), w)
    /\ load_bbbc004 (PyFloat f) false (PyStr "index") (PyList []) true
                    PyNone PyNone [] w
       = (Raise (TypeError (TooManyPositional 7 2)), w)
    /\ load_bbbc004 (PyFloat f) true (PyStr "index") (PyList []) true
                    PyNone PyNone [] w
       = (Raise (TypeError (TooManyPositional 7 2)), w).
Proof.
  intros c f w Hc Hf. simpl in Hf.
  repeat split; try reflexivity;
    destruct Hc as [-> | ->];
    destruct Hf as [<- | [<- | [<- | [<- | [<- | []]]]]]; reflexivity.
Qed.

(** ** Loading twice *)

Lemma lookup_cache_head folder v c :
  lookup_cache ((folder, v) :: c) folder = Some v.
Proof. simpl. now rewrite String.eqb_refl. Qed.

(** A successful load with reload set, repeated in the world it left
    behind, gives the same result and leaves that world as it is. *)
Lemma load_dataset_again self name w r w1 :
  load_dataset self name true w = (Return r, w1) ->
  load_dataset self name true w1 = (Return r, w1).
Proof.
  unfold load_dataset.
  set (folder := save_folder (save_dir self) name (featurizer self)
                             (splitter self) (transformers self)).
  intros H.
  apply bind_Return in H as (hit & w0 & Hhit & H).
  unfold read_cache in Hhit. inversion Hhit; subst hit w0; clear Hhit.
  destruct (lookup_cache (cache w) folder) as [cached|] eqn:Ec.
  - inversion H; subst. unfold bind, read_cache. rewrite Ec. reflexivity.
  - apply bind_Return in H as (ds & wa & Hcreate & H).
    apply bind_Return in H as (made & wb & Hsplit & H).
    unfold lift in Hsplit. inversion Hsplit as [[Hmade Hwb]]; subst wb.
    destruct (create_dataset_again _ _ _ _ Hcreate) as [Hagain Hcache].
    simpl in H.
    destruct (cacheable (fst made)) eqn:Ecb.
    + unfold bind, write_cache, ret in H. inversion H; subst r w1; clear H.
      unfold bind, read_cache. cbn [cache].
      rewrite lookup_cache_head. reflexivity.
    + unfold bind, ret in H. inversion H; subst r w1; clear H.
      unfold bind at 1. unfold read_cache. rewrite Hcache, Ec.
      rewrite (bind_step _ _ _ _ _ Hagain).
      unfold bind, lift. rewrite Hmade. simpl. rewrite Ecb. reflexivity.
Qed.

(** Constructing a loader looks at nothing and changes nothing. *)
Lemma construct_pure c args kwargs :
  exists r, forall w, construct c args kwargs w = (r, w).
Proof.
  destruct c; cbn [construct]; unfold lift, bind.
  - eexists. intros w. reflexivity.
  - eexists. intros w. reflexivity.
  - destruct (bind_args _BBBC004_init_sig _ kwargs) as [b|e];
      [| eexists; intros w; reflexivity].
    unfold _BBBC004_Segmentation_Loader_init, bind, lift, raise.
    destruct (dict_lookup _ overlap_dict) as [[code|]|];
      eexists; intros w; reflexivity.
  - destruct (bind_args _BBBC004_init_sig _ kwargs) as [b|e];
      [| eexists; intros w; reflexivity].
    unfold _BBBC004_Loader_init, bind, lift, raise.
    destruct (dict_lookup _ overlap_dict) as [[code|]|];
      eexists; intros w; reflexivity.
Qed.

Lemma construct_readonly c args kwargs : readonly (construct c args kwargs).
Proof.
  destruct (construct_pure c args kwargs) as (r & E).
  intros w r' w' H. rewrite E in H. inversion H. reflexivity.
Qed.

Lemma construct_then_load_again c args kwargs name w r w1 :
  (loader <- construct c args kwargs ;; load_dataset loader name true) w
  = (Return r, w1) ->
  (loader <- construct c args kwargs ;; load_dataset loader name true) w1
  = (Return r, w1).
Proof.
  intros H. apply bind_Return in H as (self & w0 & Hc & H).
  pose proof (construct_readonly _ _ _ _ _ _ Hc) as ->.
  assert (Hc1 : construct c args kwargs w1 = (Return self, w1)).
  { destruct (construct_pure c args kwargs) as (r0 & E).
    rewrite E in Hc. rewrite E. congruence. }
  rewrite (bind_step _ _ _ _ _ Hc1).
  exact (load_dataset_again _ _ _ _ _ H).
Qed.

(** C6. For every load function: when a call with reload set has
    succeeded, the same call repeated in the world the first one left
    behind returns the same task names, datasets and transformers, and
    returns the world unchanged; in particular its fetch log has no new
    entry, so the network fetcher was not invoked. *)
Theorem reload_twice_same_result_no_fetch :
  forall f sp tr dd sd kwargs w r w1,
    load f sp tr true dd sd kwargs w = (Return r, w1) ->
    load f sp tr true dd sd kwargs w1 = (Return r, w1)
    /\ fetched (snd (load f sp tr true dd sd kwargs w1)) = fetched w1.
Proof.
  intros f sp tr dd sd kwargs w r w1 H.
  assert (E : load f sp tr true dd sd kwargs w1 = (Return r, w1)).
  { destruct f as [| | overlap mask]; simpl in *.
    - apply construct_then_load_again with (w := w). exact H.
    - apply construct_then_load_again with (w := w). exact H.
    - unfold load_bbbc004 in *. destruct mask;
        apply construct_then_load_again with (w := w); exact H. }
  split; [exact E | rewrite E; reflexivity].
Qed.

(** ** What the built datasets contain *)

Lemma load_images_Return s p w names w1 :
  load_images s p w = (Return names, w1) ->
  w1 = w
  /\ exists raw,
      archive_images w p = Some raw
      /\ names = (if s then sorted raw else raw).
Proof.
  unfold load_images, archive_images, bind, read_file, lift, ret.
  destruct (lookup_file (files w) p) as [content|]; [| discriminate].
  destruct (unzip content) as [raw|e]; [| discriminate].
  intros H. inversion H. eauto.
Qed.

(** The dataset built from an array of labels. *)
Lemma ImageLoader_array_Return s f ys m w ds w' :
  ImageLoader_create_dataset s f (LabelArray ys) m w = (Return ds, w') ->
  ds_y ds = map CountLabel ys
  /\ exists raw,
      archive_images w f = Some raw
      /\ ds_X ds = (if s then sorted raw else raw).
Proof.
  unfold ImageLoader_create_dataset. intros H.
  apply bind_Return in H as (images & w1 & Hi & H).
  apply load_images_Return in Hi as (-> & raw & Ha & ->).
  unfold ret in H. inversion H; subst. simpl. eauto.
Qed.


Lemma create_dataset_build self w ds w' :
  create_dataset self w = (Return ds, w') ->
  build_part self w' = (Return ds, w').
Proof.
  rewrite create_dataset_steps. intros H.
  apply fetch_all_Return in H as (w1 & H & _).
  pose proof (readonly_build_part _ _ _ _ H) as ->. exact H.
Qed.





(** ** Label aggregation *)

Lemma wrap64_small z : - 2 ^ 63 <= z < 2 ^ 63 -> wrap64 z = z.
Proof. intros H. unfold wrap64. rewrite Z.mod_small; lia. Qed.

(** Below 2^53 in magnitude the sum is a binary64 number, and the cell is
    the half of the sum with its fraction dropped. *)
Lemma mean_cell_trunc a b :
  - 2 ^ 53 < a + b < 2 ^ 53 -> mean_cell a b = trunc_mean a b.
Proof.
  intros H. unfold mean_cell, trunc_mean.
  rewrite wrap64_small by lia.
  unfold int64_to_float64.
  destruct (Z.ltb_spec (Z.abs (a + b)) (2 ^ 53)) as [_ | Hge];
    [reflexivity | lia].
Qed.

Lemma trunc_mean_floor a b : 0 <= a + b -> trunc_mean a b = floor_mean a b.
Proof.
  intros H. unfold trunc_mean, floor_mean.
  apply Z.quot_div_nonneg; lia.
Qed.

Lemma mean_cells_length a : forall b,
  List.length a = List.length b ->
  List.length (mean_cells a b) = List.length a.
Proof.
  induction a as [|x a IH]; intros [|y b]; simpl; intros H;
    try discriminate; [reflexivity | f_equal; apply IH; lia].
Qed.

Lemma mean_cells_nth a : forall b i x y,
  nth_error a i = Some x -> nth_error b i = Some y ->
  nth_error (mean_cells a b) i = Some (mean_cell x y).
Proof.
  induction a as [|x0 a IH]; intros [|y0 b] [|i] x y; simpl;
    try discriminate.
  - intros Hx Hy. inversion Hx. inversion Hy. reflexivity.
  - apply IH.
Qed.

(** What a successful reading part of BBBC001/BBBC002 went through. *)
Lemma labels_and_build_Return f l n1 n2 w ds w' :
  BBBC00x_labels_and_build f l n1 n2 w = (Return ds, w') ->
  exists text table col1 col2,
    lookup_file (files w) l = Some text
    /\ parse_tsv text = Return table
    /\ column table n1 = Return col1
    /\ column table n2 = Return col2
    /\ List.length col1 = List.length col2
    /\ ds_y ds = map CountLabel (mean_cells col1 col2).
Proof.
  unfold BBBC00x_labels_and_build. intros H.
  apply bind_Return in H as (table & w1 & Ht & H).
  unfold pd_read_csv in Ht.
  apply bind_Return in Ht as (text & w0 & Hr & Hp).
  unfold read_file in Hr.
  destruct (lookup_file (files w) l) as [text'|] eqn:El; [| discriminate].
  inversion Hr; subst text' w0; clear Hr.
  unfold lift in Hp. inversion Hp as [[Hparse Hw1]]; subst w1.
  apply bind_Return in H as (col1 & w2 & H1 & H).
  unfold lift in H1. inversion H1 as [[Hc1 Hw2]]; subst w2.
  apply bind_Return in H as (col2 & w3 & H2 & H).
  unfold lift in H2. inversion H2 as [[Hc2 Hw3]]; subst w3.
  apply bind_Return in H as (labels & w4 & H3 & H).
  unfold lift in H3. inversion H3 as [[Hm Hw4]]; subst w4.
  unfold np_mean_axis0_int in Hm.
  destruct (Nat.eqb (List.length col1) (List.length col2)) eqn:En;
    [| discriminate].
  inversion Hm; subst labels.
  apply Nat.eqb_eq in En.
  apply ImageLoader_array_Return in H as (H & _).
  exists text, table, col1, col2. auto 10.
Qed.

(** C4, as the code has it.  For a label file whose two annotator columns
    are [col1] and [col2], the BBBC001 and BBBC002 loaders give one label
    per row and label the i-th sample, in row order, with the half of the
    row's sum rounded toward zero, for every row whose sum is below 2^53
    in magnitude; where the sum is not negative this is the average
    rounded down. *)
Theorem aggregated_label_truncates_mean :
  forall self w ds w' text table col1 col2,
    has_annotators (cls self) ->
    create_dataset self w = (Return ds, w') ->
    lookup_file (files w') (labels_file self) = Some text ->
    parse_tsv text = Return table ->
    column table (fst (annotator_columns (cls self))) = Return col1 ->
    column table (snd (annotator_columns (cls self))) = Return col2 ->
    List.length (ds_y ds) = List.length col1
    /\ List.length col2 = List.length col1
    /\ forall i a b,
        nth_error col1 i = Some a -> nth_error col2 i = Some b ->
        - 2 ^ 53 < a + b < 2 ^ 53 ->
        label_at ds i = Some (CountLabel (trunc_mean a b))
        /\ (0 <= a + b -> label_at ds i = Some (CountLabel (floor_mean a b))).
Proof.
  intros self w ds w' text table col1 col2 Hc H Hl Hp H1 H2.
  apply create_dataset_build in H.
  assert (Hb : exists f,
             BBBC00x_labels_and_build f (labels_file self)
               (fst (annotator_columns (cls self)))
               (snd (annotator_columns (cls self))) w' = (Return ds, w')).
  { unfold build_part, labels_file in *.
    destruct Hc as [Hc | Hc]; rewrite Hc in *; simpl; eauto. }
  destruct Hb as (f & Hb).
  apply labels_and_build_Return in Hb
    as (text' & table' & c1 & c2 & El & Ep & E1 & E2 & Elen & Elab).
  assert (text' = text) by congruence. subst text'.
  assert (table' = table) by congruence. subst table'.
  assert (c1 = col1) by congruence. subst c1.
  assert (c2 = col2) by congruence. subst c2.
  assert (Hlen : List.length (ds_y ds) = List.length col1).
  { rewrite Elab, length_map. apply mean_cells_length. exact Elen. }
  split; [exact Hlen |]. split; [symmetry; exact Elen |].
  intros i a b Ha Hb Hr.
  assert (Hi : label_at ds i = Some (CountLabel (trunc_mean a b))).
  { unfold label_at. rewrite Elab, nth_error_map.
    rewrite (mean_cells_nth _ _ _ _ _ Ha Hb). simpl.
    now rewrite mean_cell_trunc. }
  split; [exact Hi |].
  intros Hn. rewrite <- trunc_mean_floor by exact Hn. exact Hi.
Qed.

(** ** Failures *)

Lemma fetch_all_app {A} d pre l (k : M A) :
  fetch_all d (pre ++ l) k = fetch_all d pre (fetch_all d l k).
Proof.
  induction pre as [|[f u] pre IH]; simpl; [reflexivity | now rewrite IH].
Qed.

Lemma fetch_all_ok {A} d l (k : M A) w w1 :
  fetched_ok d l w w1 -> fetch_all d l k w = k w1.
Proof.
  induction 1 as [w | f u l w w1 Hf _ IH | f u l w c w1 Hf Hr _ IH]; simpl.
  - reflexivity.
  - rewrite fetch_present by exact Hf. exact IH.
  - rewrite (fetch_absent_ok _ _ _ _ _ c Hf Hr). exact IH.
Qed.

(** Files found or fetched: at most one fetch per file, nothing cached. *)
Lemma fetched_ok_log d l w w1 :
  fetched_ok d l w w1 ->
  cache w1 = cache w
  /\ exists new, fetched w1 = new ++ fetched w
                 /\ (List.length new <= List.length l)%nat.
Proof.
  induction 1 as [w | f u l w w1 Hf _ IH | f u l w c w1 Hf Hr _ IH].
  - split; [reflexivity |]. exists []. simpl. auto.
  - destruct IH as (C & new & E & L). split; [exact C |].
    exists new. simpl. split; [exact E | lia].
  - destruct IH as (C & new & E & L). split; [exact C |].
    exists (new ++ [(u, d)]). rewrite <- app_assoc. simpl.
    split; [exact E | rewrite length_app; simpl; lia].
Qed.

Lemma build_part_missing_file self w :
  lookup_file (files w) (first_read self) = None ->
  build_part self w = (Raise (FileNotFoundError (first_read self)), w).
Proof.
  unfold first_read, build_part, labels_file. intros H.
  destruct (cls self);
    unfold BBBC00x_labels_and_build, pd_read_csv,
           ImageLoader_create_dataset, load_images, bind, read_file;
    rewrite H; reflexivity.
Qed.

Lemma build_part_malformed_labels self w text e :
  has_annotators (cls self) ->
  lookup_file (files w) (labels_file self) = Some text ->
  parse_tsv text = Raise e ->
  build_part self w = (Raise e, w).
Proof.
  unfold build_part, labels_file. intros Hc Hl Hp.
  destruct Hc as [Hc | Hc]; rewrite Hc in *;
    unfold BBBC00x_labels_and_build, pd_read_csv, bind, read_file, lift;
    rewrite Hl, Hp; reflexivity.
Qed.

Lemma create_dataset_io_failure self w e w1 :
  io_failure self w e w1 -> create_dataset self w = (Raise e, w1).
Proof.
  rewrite create_dataset_steps.
  intros [pre f u post w0 w2 e0 Hreq Hok Hf Hr | w0 w2 Hok Hf
         | w0 w2 text e0 Hc Hok Hl Hp | w0 w2 e0 w3 Hok Hb].
  - rewrite Hreq, fetch_all_app, (fetch_all_ok _ _ _ _ _ Hok). simpl.
    apply fetch_absent_fail; assumption.
  - rewrite (fetch_all_ok _ _ _ _ _ Hok).
    apply build_part_missing_file. exact Hf.
  - rewrite (fetch_all_ok _ _ _ _ _ Hok).
    eapply build_part_malformed_labels; eassumption.
  - rewrite (fetch_all_ok _ _ _ _ _ Hok). exact Hb.
Qed.

Lemma fetch_all_Raise {A} d l (k : M A) : forall w e w',
  fetch_all d l k w = (Raise e, w') ->
  (exists pre f u post w1,
      l = pre ++ (f, u) :: post
      /\ fetched_ok d pre w w1
      /\ lookup_file (files w1) f = None
      /\ remote u = Raise e
      /\ w' = logged u d w1)
  \/ (exists w1, fetched_ok d l w w1 /\ k w1 = (Raise e, w')).
Proof.
  induction l as [|[f u] l IH]; simpl; intros w e w' H.
  - right. exists w. split; [constructor | exact H].
  - destruct (lookup_file (files w) f) as [c0|] eqn:E.
    + assert (Hf : lookup_file (files w) f <> None) by congruence.
      rewrite fetch_present in H by exact Hf.
      apply IH in H
        as [(pre & f' & u' & post & w1 & -> & Hok & Hl & Hr & ->)
           | (w1 & Hok & Hk)].
      * left. exists ((f, u) :: pre), f', u', post, w1.
        repeat split; auto. apply fetched_present; assumption.
      * right. exists w1. split; [apply fetched_present |]; assumption.
    + destruct (remote u) as [c|e0] eqn:R.
      * rewrite (fetch_absent_ok _ _ _ _ _ c E R) in H.
        apply IH in H
          as [(pre & f' & u' & post & w1 & -> & Hok & Hl & Hr & ->)
             | (w1 & Hok & Hk)].
        -- left. exists ((f, u) :: pre), f', u', post, w1.
           repeat split; auto. eapply fetched_stored; eassumption.
        -- right. exists w1.
           split; [eapply fetched_stored; eassumption | assumption].
      * rewrite (fetch_absent_fail _ _ _ _ _ e0 E R) in H.
        inversion H; subst. left.
        exists [], f, u, l, w. repeat split; auto. constructor.
Qed.

(** Conversely, [create_dataset] raises nothing of its own: whatever it
    raises is the failure of one of its input/output steps. *)
Lemma create_dataset_raises_io_failure self w e w1 :
  create_dataset self w = (Raise e, w1) -> io_failure self w e w1.
Proof.
  rewrite create_dataset_steps. intros H.
  apply fetch_all_Raise in H
    as [(pre & f & u & post & w0 & Hreq & Hok & Hl & Hr & ->)
       | (w0 & Hok & Hk)].
  - eapply fails_network; eassumption.
  - eapply fails_reading; eassumption.
Qed.

Lemma io_failure_log self w e w1 :
  io_failure self w e w1 ->
  cache w1 = cache w
  /\ exists new, fetched w1 = new ++ fetched w
                 /\ (List.length new <= List.length (required_files self))%nat.
Proof.
  intros [pre f u post w0 w2 e0 Hreq Hok Hf Hr | w0 w2 Hok Hf
         | w0 w2 text e0 Hc Hok Hl Hp | w0 w2 e0 w3 Hok Hb].
  - apply fetched_ok_log in Hok as (C & new & E & L).
    split; [exact C |]. exists ((u, data_dir self) :: new). simpl.
    rewrite E, Hreq, length_app. simpl. split; [reflexivity | lia].
  - apply fetched_ok_log in Hok. exact Hok.
  - apply fetched_ok_log in Hok. exact Hok.
  - pose proof (readonly_build_part _ _ _ _ Hb) as ->.
    apply fetched_ok_log in Hok. exact Hok.
Qed.

(** C8. When an input/output step of a load fails with [e] (a fetch, a
    missing file, the parsing of the label file or any other step of the
    reading part), [create_dataset] raises that very [e] and returns no
    dataset, and so does [load_dataset] when it has to build (reload
    unset, or set with nothing cached).  Nothing is retried: the fetch log
    grew by at most one call per required file, the failed fetch being
    the last one, and nothing was written to the cache. *)
Theorem io_errors_propagate :
  forall self w e w1,
    io_failure self w e w1 ->
    create_dataset self w = (Raise e, w1)
    /\ (forall name, load_dataset self name false w = (Raise e, w1))
    /\ (forall name,
           lookup_cache (cache w)
             (save_folder (save_dir self) name (featurizer self)
                          (splitter self) (transformers self)) = None ->
           load_dataset self name true w = (Raise e, w1))
    /\ cache w1 = cache w
    /\ exists new, fetched w1 = new ++ fetched w
                   /\ (List.length new
                       <= List.length (required_files self))%nat.
Proof.
  intros self w e w1 H.
  pose proof (create_dataset_io_failure _ _ _ _ H) as Hc.
  split; [exact Hc |]. split; [| split].
  - intros name. unfold load_dataset. unfold bind at 1. simpl.
    apply (bind_fail _ _ _ _ _ Hc).
  - intros name Hmiss. unfold load_dataset. unfold bind at 1.
    unfold read_cache. rewrite Hmiss.
    apply (bind_fail _ _ _ _ _ Hc).
  - exact (io_failure_log _ _ _ _ H).
Qed.

(** ** What the BBBC004 loaders fetch *)

Lemma append_cancel_l (d x y : string) :
  (d ++ x = d ++ y)%string -> x = y.
Proof.
  induction d as [|c d IH]; simpl; intros H; [exact H |].
  inversion H. auto.
Qed.

(** Joining one directory with two relative names gives the same path
    only for the same name. *)
Lemma os_path_join_inj d a b :
  starts_with_sep a = false -> starts_with_sep b = false ->
  os_path_join d a = os_path_join d b -> a = b.
Proof.
  unfold os_path_join. intros -> ->.
  destruct (match d with EmptyString => true | _ => ends_with_sep d end).
  - apply append_cancel_l.
  - intros H. apply append_cancel_l in H. simpl in H. inversion H.
    reflexivity.
Qed.

(** The calls a chain of fetch steps adds to the log name only the urls
    of the chain and the chain's directory, and only the paths derived
    from those urls can change on disk. *)
Lemma fetch_all_log {A} d l (k : M A) :
  readonly k -> forall w r w',
  fetch_all d l k w = (r, w') ->
  (exists new,
      fetched w' = new ++ fetched w
      /\ Forall (fun call => In (fst call) (map snd l) /\ snd call = d) new)
  /\ (forall p,
         (forall u, In u (map snd l) ->
                    p <> os_path_join d (url_basename u)) ->
         lookup_file (files w') p = lookup_file (files w) p).
Proof.
  intros Hk. induction l as [|[f u] l IH]; simpl; intros w r w' H.
  - apply Hk in H. subst w'. split; [exists []; auto | auto].
  - destruct (lookup_file (files w) f) as [c0|] eqn:E.
    + rewrite fetch_present in H by congruence.
      apply IH in H as ((new & En & Fn) & Hp). split.
      * exists new. split; [exact En |].
        eapply Forall_impl; [| exact Fn]. simpl. tauto.
      * intros p Hd. apply Hp. auto.
    + destruct (remote u) as [c|e] eqn:R.
      * rewrite (fetch_absent_ok _ _ _ _ _ c E R) in H.
        apply IH in H as ((new & En & Fn) & Hp). split.
        -- exists (new ++ [(u, d)]). rewrite <- app_assoc. simpl.
           split; [exact En |].
           apply Forall_app. split.
           ++ eapply Forall_impl; [| exact Fn]. simpl. tauto.
           ++ repeat constructor; simpl; auto.
        -- intros p Hd. rewrite Hp by auto. simpl.
           destruct (String.eqb_spec (os_path_join d (url_basename u)) p)
             as [Heq | _]; [| reflexivity].
           exfalso. apply (Hd u); auto.
      * rewrite (fetch_absent_fail _ _ _ _ _ e E R) in H.
        inversion H; subst. split.
        -- exists [(u, d)]. simpl. split; [reflexivity |].
           repeat constructor; simpl; auto.
        -- intros p _. reflexivity.
Qed.

(** A missing first file is fetched, whatever happens afterwards. *)
Lemma first_fetch_logged {A} d f u l (k : M A) :
  readonly k -> forall w r w',
  lookup_file (files w) f = None ->
  fetch_all d ((f, u) :: l) k w = (r, w') ->
  In (u, d) (fetched w').
Proof.
  intros Hk w r w' E H. simpl in H.
  destruct (remote u) as [c|e] eqn:R.
  - rewrite (fetch_absent_ok _ _ _ _ _ c E R) in H.
    apply (fetch_all_log _ _ _ Hk) in H as ((new & En & _) & _).
    rewrite En. apply in_or_app. right. simpl. auto.
  - rewrite (fetch_absent_fail _ _ _ _ _ e E R) in H.
    inversion H. simpl. auto.
Qed.

(** C9. For every validated overlap code the BBBC004 loaders fetch only
    the two fixed archives of overlap 0.0 (the image archive as soon as
    the expected image file is missing), into the data directory, although
    the file they look for carries the chosen code.  The name the fetched
    archive has is the expected name for the code 00 only: for every other
    code the names differ, so do the paths, the expected image file is
    still missing after the fetch and the load ends in an error. *)
Theorem BBBC004_fetches_overlap_zero_archives :
  forall self w r w',
    is_BBBC004 (cls self) ->
    In (overlap_probability self) (map snd overlap_dict) ->
    create_dataset self w = (r, w') ->
    let expected :=
      os_path_join (data_dir self)
                   (BBBC004_images_name (overlap_probability self)) in
    (exists new,
        fetched w' = new ++ fetched w
        /\ Forall (fun call =>
                     (fst call = BBBC4_IMAGE_URL
                      \/ fst call = BBBC4_FOREGROUND_URL)
                     /\ snd call = data_dir self) new)
    /\ (lookup_file (files w) expected = None ->
        In (BBBC4_IMAGE_URL, data_dir self) (fetched w'))
    /\ url_basename BBBC4_IMAGE_URL = BBBC004_images_name "00"
    /\ url_basename BBBC4_FOREGROUND_URL = BBBC004_foreground_name "00"
    /\ (overlap_probability self <> "00" ->
        BBBC004_images_name (overlap_probability self)
        <> url_basename BBBC4_IMAGE_URL
        /\ BBBC004_foreground_name (overlap_probability self)
           <> url_basename BBBC4_FOREGROUND_URL
        /\ expected
           <> os_path_join (data_dir self) (url_basename BBBC4_IMAGE_URL)
        /\ (lookup_file (files w) expected = None ->
            lookup_file (files w') expected = None
            /\ exists e, r = Raise e)).
Proof.
  intros self w r w' Hc Hcode H expected.
  rewrite create_dataset_steps in H.
  pose proof (fetch_all_log _ _ _ (readonly_build_part self) _ _ _ H)
    as ((new & En & Fn) & Hp).
  assert (Hurls : forall u, In u (map snd (required_files self)) ->
                            u = BBBC4_IMAGE_URL \/ u = BBBC4_FOREGROUND_URL).
  { unfold required_files. destruct Hc as [-> | ->]; simpl; intuition. }
  assert (Hfirst : exists l,
             required_files self = (expected, BBBC4_IMAGE_URL) :: l).
  { unfold required_files, expected. destruct Hc as [-> | ->]; eauto. }
  split; [| split; [| split; [| split]]].
  - exists new. split; [exact En |].
    eapply Forall_impl; [| exact Fn]. simpl. intros call [Hu Hd].
    split; [apply Hurls; exact Hu | exact Hd].
  - intros E. destruct Hfirst as (l & Hl). rewrite Hl in H.
    exact (first_fetch_logged _ _ _ _ _ (readonly_build_part self)
                              _ _ _ E H).
  - reflexivity.
  - reflexivity.
  - intros Hne.
    assert (Hnames :
              BBBC004_images_name (overlap_probability self)
              <> url_basename BBBC4_IMAGE_URL
              /\ BBBC004_foreground_name (overlap_probability self)
                 <> url_basename BBBC4_FOREGROUND_URL
              /\ BBBC004_images_name (overlap_probability self)
                 <> url_basename BBBC4_FOREGROUND_URL
              /\ starts_with_sep
                   (BBBC004_images_name (overlap_probability self)) = false).
    { simpl in Hcode.
      destruct Hcode as [E | [E | [E | [E | [E | []]]]]];
        rewrite <- E in *; try congruence;
        repeat split; discriminate. }
    destruct Hnames as (N1 & N2 & N3 & Hrel).
    assert (P1 : expected
                 <> os_path_join (data_dir self)
                                 (url_basename BBBC4_IMAGE_URL)).
    { unfold expected. intros Heq.
      apply os_path_join_inj in Heq; [contradiction | exact Hrel
                                     | reflexivity]. }
    assert (P2 : expected
                 <> os_path_join (data_dir self)
                                 (url_basename BBBC4_FOREGROUND_URL)).
    { unfold expected. intros Heq.
      apply os_path_join_inj in Heq; [contradiction | exact Hrel
                                     | reflexivity]. }
    split; [exact N1 |]. split; [exact N2 |]. split; [exact P1 |].
    intros E.
    assert (E' : lookup_file (files w') expected = None).
    { rewrite Hp; [exact E |].
      intros u Hu. destruct (Hurls u Hu) as [-> | ->]; assumption. }
    split; [exact E' |].
    destruct r as [ds | e]; [| eauto].
    exfalso.
    apply fetch_all_Return in H as (w1 & Hb & _).
    pose proof (readonly_build_part _ _ _ _ Hb) as ->.
    revert Hb. destruct Hfirst as (l & Hl). intros Hb.
    refine (needs_build_part self expected _ _ _ _ Hb E').
    rewrite Hl. simpl. auto.
Qed.

(** ** The featurizer *)




(** ** More on the label aggregation *)

(** The half of [n] rounded toward zero, by its remainder. *)
Lemma quot2_bounds n :
  (0 <= n -> 2 * Z.quot n 2 <= n < 2 * Z.quot n 2 + 2)
  /\ (n <= 0 -> 2 * Z.quot n 2 - 2 < n <= 2 * Z.quot n 2).
Proof.
  pose proof (Z.quot_rem' n 2) as E.
  split; intros H.
  - pose proof (Z.rem_bound_pos n 2 H ltac:(lia)). lia.
  - pose proof (Z.rem_bound_pos_neg n 2 ltac:(lia) H). lia.
Qed.

Lemma trunc_mean_between x y :
  Z.min x y <= trunc_mean x y <= Z.max x y.
Proof.
  unfold trunc_mean.
  destruct (quot2_bounds (x + y)) as [Hpos Hneg].
  destruct (Z_le_gt_dec 0 (x + y)) as [H | H].
  - specialize (Hpos H). lia.
  - specialize (Hneg ltac:(lia)). lia.
Qed.

Lemma np_mean_axis0_int_cells a b l :
  np_mean_axis0_int a b = Return l ->
  List.length a = List.length b /\ l = mean_cells a b.
Proof.
  unfold np_mean_axis0_int.
  destruct (Nat.eqb (List.length a) (List.length b)) eqn:E;
    [| discriminate].
  intros H. inversion H. apply Nat.eqb_eq in E. auto.
Qed.

(** X1. The aggregated label of a row lies between the two annotators'
    counts, and is their count when they agree (sums below 2^53 in
    magnitude). *)
Theorem aggregated_label_between_counts :
  forall a b l i x y,
    np_mean_axis0_int a b = Return l ->
    nth_error a i = Some x -> nth_error b i = Some y ->
    - 2 ^ 53 < x + y < 2 ^ 53 ->
    exists v,
      nth_error l i = Some v
      /\ Z.min x y <= v <= Z.max x y
      /\ (x = y -> v = x).
Proof.
  intros a b l i x y H Hx Hy Hr.
  apply np_mean_axis0_int_cells in H as [_ ->].
  exists (mean_cell x y).
  split; [apply mean_cells_nth; assumption |].
  rewrite mean_cell_trunc by exact Hr.
  pose proof (trunc_mean_between x y) as B.
  split; [exact B | intros ->; lia].
Qed.

Lemma mean_cells_comm a : forall b, mean_cells a b = mean_cells b a.
Proof.
  induction a as [|x a IH]; intros [|y b]; simpl; try reflexivity.
  unfold mean_cell. rewrite (Z.add_comm x y), IH. reflexivity.
Qed.

(** X2. The labels do not depend on which annotator's column comes first,
    also where the int64 sum wraps or the columns cannot be combined. *)
Theorem aggregation_ignores_annotator_order :
  forall a b, np_mean_axis0_int a b = np_mean_axis0_int b a.
Proof.
  intros a b. unfold np_mean_axis0_int.
  rewrite (Nat.eqb_sym (List.length a) (List.length b)).
  rewrite mean_cells_comm. reflexivity.
Qed.

Lemma column_missing t name :
  ~ In name (map fst t) -> column t name = Raise (KeyError name).
Proof.
  induction t as [|[n cells] t IH]; simpl; intros H; [reflexivity |].
  destruct (String.eqb_spec n name) as [-> | _]; [tauto |].
  apply IH. tauto.
Qed.

Lemma column_present t name :
  In name (map fst t) -> exists cells, column t name = Return cells.
Proof.
  induction t as [|[n cells] t IH]; simpl; intros H; [contradiction |].
  destruct (String.eqb_spec n name) as [-> | Hne]; [eauto |].
  apply IH. destruct H; [contradiction | assumption].
Qed.

(** X3. A label file without one of the two annotator columns: with the raw
    files on disk, the BBBC001 and BBBC002 loaders raise KeyError for the
    first of the two columns that is missing, fetch nothing and leave the
    world as it is. *)
Theorem missing_annotator_column_is_KeyError :
  forall self w text table,
    has_annotators (cls self) ->
    (forall f, In f (map fst (required_files self)) ->
               lookup_file (files w) f <> None) ->
    lookup_file (files w) (labels_file self) = Some text ->
    parse_tsv text = Return table ->
    (~ In (fst (annotator_columns (cls self))) (map fst table) ->
     create_dataset self w
     = (Raise (KeyError (fst (annotator_columns (cls self)))), w))
    /\ (In (fst (annotator_columns (cls self))) (map fst table) ->
        ~ In (snd (annotator_columns (cls self))) (map fst table) ->
        create_dataset self w
        = (Raise (KeyError (snd (annotator_columns (cls self)))), w)).
Proof.
  intros self w text table Hc Hall Hl Hp.
  rewrite create_dataset_steps, fetch_all_present by exact Hall.
  assert (Hb : build_part self w
               = BBBC00x_labels_and_build
                   (fst (hd (EmptyString, EmptyString)
                            (required_files self)))
                   (labels_file self)
                   (fst (annotator_columns (cls self)))
                   (snd (annotator_columns (cls self))) w).
  { unfold build_part, required_files, labels_file.
    destruct Hc as [Hc | Hc]; rewrite Hc; reflexivity. }
  rewrite Hb. clear Hb.
  unfold BBBC00x_labels_and_build, pd_read_csv, bind, read_file, lift.
  rewrite Hl, Hp.
  split.
  - intros H1. rewrite (column_missing _ _ H1). reflexivity.
  - intros H1 H2. destruct (column_present _ _ H1) as (cells & ->).
    rewrite (column_missing _ _ H2). reflexivity.
Qed.

(** ** More on what is fetched *)

Lemma missing_files_ext w1 w2 l :
  (forall g, In g (map fst l) ->
             lookup_file (files w1) g = lookup_file (files w2) g) ->
  missing_files w1 l = missing_files w2 l.
Proof.
  unfold missing_files. induction l as [|[f u] l IH]; simpl; intros H;
    [reflexivity |].
  rewrite (H f) by auto. rewrite IH by auto. reflexivity.
Qed.

Lemma fetch_all_exact {A} d l (k : M A) :
  readonly k -> forall w a w',
  independent d l ->
  fetch_all d l k w = (Return a, w') ->
  fetched w' = fetch_calls d (missing_files w l) ++ fetched w.
Proof.
  intros Hk. induction l as [|[f u] l IH]; simpl; intros w a w' Hi H.
  - apply Hk in H. subst. reflexivity.
  - destruct Hi as [Hfresh Hi].
    unfold missing_files. simpl.
    destruct (lookup_file (files w) f) as [c0|] eqn:E.
    + rewrite fetch_present in H by congruence.
      exact (IH _ _ _ Hi H).
    + destruct (remote u) as [c|e] eqn:R.
      * rewrite (fetch_absent_ok _ _ _ _ _ c E R) in H.
        rewrite (IH _ _ _ Hi H).
        rewrite (missing_files_ext (stored u d c w) w).
        -- unfold fetch_calls. simpl. rewrite <- app_assoc. reflexivity.
        -- intros g Hg. simpl.
           destruct (String.eqb_spec (os_path_join d (url_basename u)) g)
             as [Heq | _]; [| reflexivity].
           exfalso. apply (Hfresh g Hg). symmetry. exact Heq.
      * rewrite (fetch_absent_fail _ _ _ _ _ e E R) in H. discriminate.
Qed.

Lemma independent_required self :
  validated self -> independent (data_dir self) (required_files self).
Proof.
  unfold validated, required_files. intros Hv.
  destruct (cls self) eqn:Ec; simpl.
  - split; [| tauto]. intros g [<- | []] Heq.
    apply os_path_join_inj in Heq; [discriminate | reflexivity ..].
  - split; [| tauto]. intros g [<- | []] Heq.
    apply os_path_join_inj in Heq; [discriminate | reflexivity ..].
  - split; [| tauto]. intros g [<- | []] Heq.
    apply os_path_join_inj in Heq; [| reflexivity ..].
    specialize (Hv (or_introl eq_refl)). simpl in Hv.
    destruct Hv as [E | [E | [E | [E | [E | []]]]]];
      rewrite <- E in Heq; discriminate.
  - tauto.
Qed.

(** X4. A [create_dataset] that succeeds has fetched exactly the raw files
    that were missing when it started, each once, in the order of its
    checks and into the data directory; with every raw file on disk it
    fetches nothing. *)
Theorem fetches_exactly_the_missing_files :
  forall self w ds w',
    validated self ->
    create_dataset self w = (Return ds, w') ->
    fetched w'
    = fetch_calls (data_dir self) (missing_files w (required_files self))
      ++ fetched w.
Proof.
  intros self w ds w' Hv H. rewrite create_dataset_steps in H.
  exact (fetch_all_exact _ _ _ (readonly_build_part self) _ _ _
                         (independent_required _ Hv) H).
Qed.

Lemma fetch_all_monotone {A} d l (k : M A) :
  readonly k -> forall w r w' p,
  fetch_all d l k w = (r, w') ->
  lookup_file (files w) p <> None -> lookup_file (files w') p <> None.
Proof.
  intros Hk. induction l as [|[f u] l IH]; simpl; intros w r w' p H Hp.
  - apply Hk in H. subst. exact Hp.
  - destruct (lookup_file (files w) f) as [c0|] eqn:E.
    + rewrite fetch_present in H by congruence. exact (IH _ _ _ _ H Hp).
    + destruct (remote u) as [c|e] eqn:R.
      * rewrite (fetch_absent_ok _ _ _ _ _ c E R) in H.
        apply (IH _ _ _ _ H). simpl.
        destruct (String.eqb (os_path_join d (url_basename u)) p);
          [discriminate | exact Hp].
      * rewrite (fetch_absent_fail _ _ _ _ _ e E R) in H.
        inversion H; subst. exact Hp.
Qed.

Lemma fetch_all_found {A} d l (k : M A) :
  readonly k -> forall w r w',
  (forall f u, In (f, u) l -> f = os_path_join d (url_basename u)) ->
  (forall u, In u (map snd l) -> exists c, remote u = Return c) ->
  fetch_all d l k w = (r, w') ->
  forall f, In f (map fst l) -> lookup_file (files w') f <> None.
Proof.
  intros Hk. induction l as [|[f u] l IH]; simpl;
    intros w r w' Hnames Hnet H g Hg; [contradiction |].
  destruct (lookup_file (files w) f) as [c0|] eqn:E.
  - rewrite fetch_present in H by congruence.
    destruct Hg as [<- | Hg].
    + apply (fetch_all_monotone _ _ _ Hk _ _ _ _ H). congruence.
    + apply (IH _ _ _ (fun f' u' Hin => Hnames f' u' (or_intror Hin))
                (fun u' Hin => Hnet u' (or_intror Hin)) H g Hg).
  - destruct (Hnet u (or_introl eq_refl)) as (c & R).
    rewrite (fetch_absent_ok _ _ _ _ _ c E R) in H.
    destruct Hg as [<- | Hg].
    + apply (fetch_all_monotone _ _ _ Hk _ _ _ _ H). simpl.
      rewrite (Hnames f u (or_introl eq_refl)), String.eqb_refl.
      discriminate.
    + apply (IH _ _ _ (fun f' u' Hin => Hnames f' u' (or_intror Hin))
                (fun u' Hin => Hnet u' (or_intror Hin)) H g Hg).
Qed.

(** X5. For the BBBC001 and BBBC002 loaders, and for the BBBC004 loaders with
    the code 00, the fetched archives are stored under the names the
    loader looks for: when the network serves the loader's urls, every raw
    file is on disk after [create_dataset], whatever its outcome. *)
Theorem raw_files_on_disk_after_load :
  forall self w r w',
    has_annotators (cls self) \/ overlap_probability self = "00" ->
    (forall u, In u (map snd (required_files self)) ->
               exists c, remote u = Return c) ->
    create_dataset self w = (r, w') ->
    forall f, In f (map fst (required_files self)) ->
              lookup_file (files w') f <> None.
Proof.
  intros self w r w' Hm Hnet H. rewrite create_dataset_steps in H.
  apply (fetch_all_found _ _ _ (readonly_build_part self) _ _ _) with (3 := H);
    [| exact Hnet].
  intros f u Hin. unfold required_files in Hin.
  destruct (cls self) eqn:Ec; simpl in Hin.
  - destruct Hin as [E | [E | []]]; inversion E; reflexivity.
  - destruct Hin as [E | [E | []]]; inversion E; reflexivity.
  - destruct Hm as [[Hc | Hc] | Hz]; try discriminate Hc.
    rewrite Hz in Hin.
    destruct Hin as [E | [E | []]]; inversion E; reflexivity.
  - destruct Hm as [[Hc | Hc] | Hz]; try discriminate Hc.
    rewrite Hz in Hin.
    destruct Hin as [E | []]; inversion E; reflexivity.
Qed.

(** X6. The count-mode BBBC004 loader makes at most one fetch, of the image
    archive, and only when the image file it expects is missing; it never
    asks for the foreground archive.  With the file on disk the world is
    left as it was. *)
Theorem count_mode_fetches_only_images :
  forall self w r w',
    cls self = _BBBC004_Loader ->
    create_dataset self w = (r, w') ->
    let expected :=
      os_path_join (data_dir self)
                   (BBBC004_images_name (overlap_probability self)) in
    (lookup_file (files w) expected <> None -> w' = w)
    /\ (lookup_file (files w) expected = None ->
        fetched w' = (BBBC4_IMAGE_URL, data_dir self) :: fetched w)
    /\ (forall call,
           In call (fetched w') ->
           call = (BBBC4_IMAGE_URL, data_dir self) \/ In call (fetched w)).
Proof.
  intros self w r w' Hc H expected.
  rewrite create_dataset_steps in H.
  unfold required_files in H. rewrite Hc in H. cbn [fetch_all] in H.
  fold expected in H.
  assert (Hfirst : (lookup_file (files w) expected <> None -> w' = w)
                   /\ (lookup_file (files w) expected = None ->
                       fetched w'
                       = (BBBC4_IMAGE_URL, data_dir self) :: fetched w)).
  { split; intros E.
    - rewrite fetch_present in H by exact E.
      exact (readonly_build_part _ _ _ _ H).
    - destruct (remote BBBC4_IMAGE_URL) as [c|e] eqn:R.
      + rewrite (fetch_absent_ok _ _ _ _ _ c E R) in H.
        apply readonly_build_part in H. subst w'. reflexivity.
      + rewrite (fetch_absent_fail _ _ _ _ _ e E R) in H.
        inversion H. reflexivity. }
  split; [exact (proj1 Hfirst) |]. split; [exact (proj2 Hfirst) |].
  intros call Hin.
  destruct (lookup_file (files w) expected) eqn:E.
  - rewrite (proj1 Hfirst) in Hin by discriminate. right. exact Hin.
  - rewrite (proj2 Hfirst) in Hin by reflexivity.
    destruct Hin as [<- | Hin]; [left; reflexivity | right; exact Hin].
Qed.

(** ** More on the BBBC004 constructors *)

Lemma set_slot_absent k v sl :
  ~ In k (map fst sl) -> set_slot k v sl = None.
Proof.
  induction sl as [|[n cur] sl IH]; simpl; intros H; [reflexivity |].
  destruct (String.eqb_spec n k) as [-> | _]; [tauto |].
  rewrite IH by tauto. reflexivity.
Qed.

(** Keywords that name no parameter all end up in [**kwargs]. *)
Lemma bind_keywords_collect kwargs : forall sl extra,
  (forall k, In k (map fst kwargs) -> ~ In k (map fst sl)) ->
  bind_keywords true kwargs sl extra = Return (sl, extra ++ kwargs).
Proof.
  induction kwargs as [|[k v] rest IH]; simpl; intros sl extra H.
  - rewrite app_nil_r. reflexivity.
  - rewrite set_slot_absent by (apply H; auto).
    rewrite IH by auto. rewrite <- app_assoc. reflexivity.
Qed.

Lemma bind_args_BBBC004_positional self x kwargs :
  ~ In "self" (map fst kwargs) ->
  ~ In "overlap_probability" (map fst kwargs) ->
  bind_args _BBBC004_init_sig [self; x] kwargs
  = Return ([("self", self); ("overlap_probability", x)], kwargs).
Proof.
  intros Hs H. unfold bind_args. simpl.
  rewrite bind_keywords_collect; [reflexivity |].
  intros k Hk [<- | [<- | []]]; contradiction.
Qed.

Lemma bind_args_BBBC004_default self kwargs :
  ~ In "self" (map fst kwargs) ->
  ~ In "overlap_probability" (map fst kwargs) ->
  bind_args _BBBC004_init_sig [self] kwargs
  = Return ([("self", self); ("overlap_probability", PyFloat lit_0_0)],
            kwargs).
Proof.
  intros Hs H. unfold bind_args. simpl.
  rewrite bind_keywords_collect; [reflexivity |].
  intros k Hk [<- | [<- | []]]; contradiction.
Qed.

Lemma bind_args_BBBC004_keyword self x kwargs :
  ~ In "self" (map fst kwargs) ->
  ~ In "overlap_probability" (map fst kwargs) ->
  bind_args _BBBC004_init_sig [self] (("overlap_probability", x) :: kwargs)
  = Return ([("self", self); ("overlap_probability", x)], kwargs).
Proof.
  intros Hs H. unfold bind_args. simpl.
  rewrite bind_keywords_collect; [reflexivity |].
  intros k Hk [<- | [<- | []]]; contradiction.
Qed.

(** A keyword named like the object parameter, which the call has filled
    by position, cannot be bound. *)
Lemma bind_keywords_self vk kwargs : forall a S extra,
  In "self" (map fst kwargs) ->
  exists k,
    bind_keywords vk kwargs (("self", Some a) :: S) extra
    = Raise (TypeError k).
Proof.
  induction kwargs as [|[k v] rest IH]; intros a S extra Hin;
    [destruct Hin |].
  cbn [bind_keywords set_slot].
  destruct (String.eqb_spec "self" k) as [<- | Hne]; [eauto |].
  assert (Hrest : In "self" (map fst rest)).
  { destruct Hin as [E | Hr]; [simpl in E; congruence | exact Hr]. }
  destruct (set_slot k v S) as [[S'|e]|] eqn:E.
  - apply IH. exact Hrest.
  - apply set_slot_raises in E. subst e. eauto.
  - destruct vk; [apply IH; exact Hrest | eauto].
Qed.

(** X7. The BBBC004 constructors accept further keyword arguments and use
    none of them: with keywords that name neither of the two parameters
    (self, overlap_probability) the outcome is that of the call without
    them, whether the overlap probability is given by position, by keyword
    or left to its default 0.0.  A keyword named self is a TypeError, the
    object being passed by position already. *)
Theorem BBBC004_constructors_drop_kwargs :
  forall c x kwargs w,
    is_BBBC004 c ->
    ~ In "overlap_probability" (map fst kwargs) ->
    (~ In "self" (map fst kwargs) ->
     construct c [x] kwargs w = construct c [x] [] w
     /\ construct c [] (("overlap_probability", x) :: kwargs) w
        = construct c [x] [] w
     /\ construct c [] kwargs w = construct c [PyFloat lit_0_0] [] w)
    /\ (In "self" (map fst kwargs) ->
        exists k, construct c [x] kwargs w = (Raise (TypeError k), w)).
Proof.
  intros c x kwargs w Hc Hk. split.
  - intros Hs.
    destruct Hc as [-> | ->]; unfold construct, bind, lift;
      rewrite (bind_args_BBBC004_positional _ x kwargs Hs Hk),
              (bind_args_BBBC004_keyword _ x kwargs Hs Hk),
              (bind_args_BBBC004_default _ kwargs Hs Hk);
      repeat split; reflexivity.
  - intros Hs.
    assert (Hb : forall obj, exists k,
               bind_args _BBBC004_init_sig [obj; x] kwargs
               = Raise (TypeError k)).
    { intros obj. unfold bind_args.
      cbn [params _BBBC004_init_sig bind_positional fst snd var_keyword].
      destruct (bind_keywords_self true kwargs obj
                  [("overlap_probability", Some x)] [] Hs) as (k & ->).
      exists k. reflexivity. }
    destruct Hc as [-> | ->]; unfold construct, bind, lift;
      match goal with
      | |- context [bind_args _ [?obj; _] _] =>
          destruct (Hb obj) as (k & ->)
      end; eauto.
Qed.

(** X8. Arguments that are not floats.  A list cannot be hashed and raises
    TypeError; a string, None, True or a non-zero int is in no key and raises the ValueError of an invalid overlap; the int 0 and
    False are equal to the key 0.0 and are treated as that float. *)
Theorem BBBC004_constructors_on_other_values :
  forall c w,
    is_BBBC004 c ->
    (forall l, construct c [PyList l] [] w
               = (Raise (TypeError Unhashable), w))
    /\ (forall s, construct c [PyStr s] [] w
                  = (Raise (ValueError (overlap_message (PyStr s))), w))
    /\ construct c [PyNone] [] w
       = (Raise (ValueError (overlap_message PyNone)), w)
    /\ construct c [PyBool true] [] w
       = (Raise (ValueError (overlap_message (PyBool true))), w)
    /\ (forall p, construct c [PyInt (Z.pos p)] [] w
                  = (Raise (ValueError (overlap_message (PyInt (Z.pos p)))),
                     w))
    /\ (forall p, construct c [PyInt (Z.neg p)] [] w
                  = (Raise (ValueError (overlap_message (PyInt (Z.neg p)))),
                     w))
    /\ construct c [PyInt 0] [] w = construct c [PyFloat lit_0_0] [] w
    /\ construct c [PyBool false] [] w = construct c [PyFloat lit_0_0] [] w.
Proof.
  intros c w [-> | ->]; repeat split; intros; reflexivity.
Qed.

(** Which key a validated float is, and its code. *)
Lemma dict_find_cases f code :
  dict_find (PyFloat f) overlap_dict = Some code ->
  ((f = S754_zero false \/ f = S754_zero true) /\ code = "00")
  \/ (f = lit_0_15 /\ code = "15")
  \/ (f = lit_0_3 /\ code = "30")
  \/ (f = lit_0_45 /\ code = "45")
  \/ (f = lit_0_6 /\ code = "60").
Proof.
  unfold overlap_dict, dict_find, eq_float_key.
  destruct (SFeqb f lit_0_0) eqn:E0.
  { apply SFeqb_zero_key in E0. intros H. inversion H. auto. }
  destruct (SFeqb f lit_0_15) eqn:E1.
  { apply SFeqb_finite_key in E1. intros H. inversion H. auto. }
  destruct (SFeqb f lit_0_3) eqn:E2.
  { apply SFeqb_finite_key in E2. intros H. inversion H. auto. }
  destruct (SFeqb f lit_0_45) eqn:E3.
  { apply SFeqb_finite_key in E3. intros H. inversion H. auto 6. }
  destruct (SFeqb f lit_0_6) eqn:E4.
  { apply SFeqb_finite_key in E4. intros H. inversion H. auto 6. }
  discriminate.
Qed.

(** X9. Two overlap probabilities that pass the validation look for the same
    image archive, or for the same foreground archive, exactly when they
    are the same number: no two overlaps share a file in a data
    directory. *)
Theorem validated_overlaps_keep_files_apart :
  forall f g cf cg d,
    dict_find (PyFloat f) overlap_dict = Some cf ->
    dict_find (PyFloat g) overlap_dict = Some cg ->
    (os_path_join d (BBBC004_images_name cf)
     = os_path_join d (BBBC004_images_name cg) <-> SFeqb f g = true)
    /\ (os_path_join d (BBBC004_foreground_name cf)
        = os_path_join d (BBBC004_foreground_name cg) <-> SFeqb f g = true).
Proof.
  intros f g cf cg d Hf Hg.
  apply dict_find_cases in Hf. apply dict_find_cases in Hg.
  assert (Hcode : cf = cg <-> SFeqb f g = true).
  { destruct Hf as [[[-> | ->] ->] | [[-> ->] | [[-> ->] | [[-> ->]
                   | [-> ->]]]]];
    destruct Hg as [[[-> | ->] ->] | [[-> ->] | [[-> ->] | [[-> ->]
                   | [-> ->]]]]];
    split; intros H; try reflexivity; try discriminate H. }
  split; (split; [intros H; apply Hcode | intros H; apply Hcode in H;
                                          rewrite H; reflexivity]).
  - apply os_path_join_inj in H; [| reflexivity ..].
    destruct Hf as [[_ ->] | [[_ ->] | [[_ ->] | [[_ ->] | [_ ->]]]]];
    destruct Hg as [[_ ->] | [[_ ->] | [[_ ->] | [[_ ->] | [_ ->]]]]];
      try reflexivity; discriminate H.
  - apply os_path_join_inj in H; [| reflexivity ..].
    destruct Hf as [[_ ->] | [[_ ->] | [[_ ->] | [[_ ->] | [_ ->]]]]];
    destruct Hg as [[_ ->] | [[_ ->] | [[_ ->] | [[_ ->] | [_ ->]]]]];
      try reflexivity; discriminate H.
Qed.

(** ** The sequence generator *)

Lemma np_random_randint_ok entropy low high drawn :
  - 2 ^ 63 <= low -> high <= 2 ^ 63 -> low < high ->
  exists v,
    np_random_randint entropy low high drawn = (Return v, S drawn)
    /\ low <= v < high.
Proof.
  intros H1 H2 H3. unfold np_random_randint.
  destruct (Z.ltb_spec low (- 2 ^ 63)); [lia |].
  destruct (Z.ltb_spec (2 ^ 63) high); [lia |].
  destruct (Z.leb_spec high low); [lia |].
  eexists. split; [reflexivity |].
  pose proof (Z.mod_pos_bound (entropy drawn) (high - low) ltac:(lia)).
  lia.
Qed.

Lemma random_tokens_ok entropy k : forall drawn,
  exists seq,
    random_tokens entropy k drawn = (Return seq, (drawn + k)%nat)
    /\ List.length seq = k
    /\ Forall (fun t => 0 <= t < 10) seq.
Proof.
  induction k as [|k IH]; intros drawn; cbn [random_tokens].
  - exists []. rewrite Nat.add_0_r. auto.
  - destruct (np_random_randint_ok entropy 0 10 drawn)
      as (t & -> & Ht); [lia | lia | lia |].
    destruct (IH (S drawn)) as (rest & -> & Hl & Hf).
    exists (t :: rest). cbn [List.length].
    replace (S drawn + k)%nat with (drawn + S k)%nat by lia.
    split; [reflexivity |]. split; [lia |]. constructor; assumption.
Qed.

Lemma generate_loop_ok entropy L :
  1 <= L < 2 ^ 63 -> forall remaining drawn,
  let g := generate_loop entropy L remaining drawn in
  stopped g = None
  /\ List.length (yielded g) = remaining
  /\ Forall (fun p => snd p = fst p
                      /\ (1 <= Z.of_nat (List.length (fst p)) <= L)
                      /\ Forall (fun t => 0 <= t < 10) (fst p))
            (yielded g)
  /\ drawn_after g
     = (drawn + remaining + total_tokens (yielded g))%nat.
Proof.
  intros HL. induction remaining as [|r IH]; intros drawn;
    cbn [generate_loop].
  - cbn. repeat split; [constructor | lia].
  - destruct (np_random_randint_ok entropy 1 (L + 1) drawn)
      as (k & -> & Hk); [lia | lia | lia |].
    destruct (random_tokens_ok entropy (Z.to_nat k) (S drawn))
      as (seq & -> & Hl & Hf).
    destruct (IH (S drawn + Z.to_nat k)%nat) as (Hs & Hn & Hall & Hd).
    cbn [yielded stopped drawn_after List.length total_tokens fold_right
         fst snd].
    repeat split.
    + exact Hs.
    + f_equal. exact Hn.
    + constructor; [| exact Hall]. cbn [fst snd].
      split; [reflexivity |]. split; [lia | exact Hf].
    + rewrite Hd. unfold total_tokens. lia.
Qed.

(** X10. Run to its end with a sequence length of at least 1,
    [generate_sequences] ends without an exception after yielding
    [num_sequences] pairs (none for a count of zero or less).  In every
    pair the target is the input sequence; a sequence has between 1 and
    [sequence_length] tokens, each from 0 to 9; and the generator has made
    one draw per pair and one per token. *)
Theorem generate_sequences_well_formed :
  forall entropy sequence_length num_sequences drawn,
    1 <= sequence_length < 2 ^ 63 ->
    let g := generate_sequences entropy sequence_length num_sequences
                                drawn in
    stopped g = None
    /\ List.length (yielded g) = Z.to_nat num_sequences
    /\ Forall (fun p => snd p = fst p
                        /\ (1 <= Z.of_nat (List.length (fst p))
                            <= sequence_length)
                        /\ Forall (fun t => 0 <= t < 10) (fst p))
              (yielded g)
    /\ drawn_after g
       = (drawn + Z.to_nat num_sequences + total_tokens (yielded g))%nat.
Proof.
  intros entropy L n drawn HL. unfold generate_sequences.
  apply generate_loop_ok. exact HL.
Qed.


Lemma generate_loop_app entropy L :
  1 <= L < 2 ^ 63 -> forall a b drawn,
  let first := generate_loop entropy L a drawn in
  let second := generate_loop entropy L b (drawn_after first) in
  yielded (generate_loop entropy L (a + b) drawn)
  = yielded first ++ yielded second
  /\ drawn_after (generate_loop entropy L (a + b) drawn)
     = drawn_after second.
Proof.
  intros HL. induction a as [|a IH]; intros b drawn;
    cbn [generate_loop Nat.add].
  - cbn. auto.
  - destruct (np_random_randint_ok entropy 1 (L + 1) drawn)
      as (k & -> & Hk); [lia | lia | lia |].
    destruct (random_tokens_ok entropy (Z.to_nat k) (S drawn))
      as (seq & -> & _ & _).
    cbn [yielded stopped drawn_after].
    destruct (IH b (S drawn + Z.to_nat k)%nat) as [Hy Hd].
    cbv zeta in Hy, Hd. rewrite Hy, Hd. auto.
Qed.

(** X12. Two generators run one after the other, as the tests do for training
    and for checking, yield together what one generator asked for the
    sum of their counts yields: the second continues the stream of draws
    where the first stopped. *)
Theorem generate_sequences_in_two_runs :
  forall entropy sequence_length a b drawn,
    1 <= sequence_length < 2 ^ 63 -> 0 <= a -> 0 <= b ->
    let first := generate_sequences entropy sequence_length a drawn in
    let second := generate_sequences entropy sequence_length b
                                     (drawn_after first) in
    yielded (generate_sequences entropy sequence_length (a + b) drawn)
    = yielded first ++ yielded second
    /\ drawn_after (generate_sequences entropy sequence_length (a + b)
                                       drawn)
       = drawn_after second.
Proof.
  intros entropy L a b drawn HL Ha Hb. unfold generate_sequences.
  rewrite Z2Nat.inj_add by assumption.
  apply generate_loop_app. exact HL.
Qed.

End Properties.

(** * The properties on the sample environment *)

(** Constructing the count loader with the valid value 0.15 ends in the
    TypeError of the argument-less base constructor call. *)
Lemma valid_overlap_construction_raises_sample :
  is_BBBC004 _BBBC004_Loader
  /\ In lit_0_15 (map fst overlap_dict)
  /\ @construct Sample.environment _BBBC004_Loader [PyFloat lit_0_15] []
                Sample.empty_world
     = (Raise (TypeError (MissingArguments base_parameters)),
        Sample.empty_world).
Proof.
  assert (Hc : is_BBBC004 _BBBC004_Loader) by (right; reflexivity).
  assert (Hf : In lit_0_15 (map fst overlap_dict))
    by (simpl; right; left; reflexivity).
  split; [exact Hc |]. split; [exact Hf |].
  exact (proj1 (@valid_overlap_construction_raises Sample.environment
                  _BBBC004_Loader lit_0_15 Sample.empty_world Hc Hf)).
Defined.



(** The row (-1, -2) of the sample BBBC002 label file is labelled -1,
    and the average of -1 and -2 rounded down is -2. *)
Lemma labels_are_not_floor_means : ~ labels_are_floor_means.
Proof.
  intros H.
  assert (Hrun : exists ds w',
             @create_dataset Sample.environment
                             (Sample.loader _BBBC002Loader "")
                             Sample.empty_world = (Return ds, w')
             /\ lookup_file (files w') "/data/BBBC002_v1_counts.txt"
                = Some "one negative row"
             /\ label_at ds 0 = Some (CountLabel (-1))).
  { eexists. eexists. split; [vm_compute; reflexivity |].
    split; reflexivity. }
  destruct Hrun as (ds & w' & Hc & Hl & Hlab).
  specialize (H Sample.environment (Sample.loader _BBBC002Loader "")
                Sample.empty_world ds w' "one negative row"
                [("human counter 1 (Robert Lindquist)", [-1]);
                 ("human counter #2 (Joohan Chang)", [-2])]
                [-1] [-2] 0%nat (-1) (-2)
                (or_intror eq_refl) Hc Hl eq_refl eq_refl eq_refl
                eq_refl eq_refl).
  rewrite Hlab in H. discriminate H.
Qed.

(** The second row (10, 13) of the sample BBBC001 label file is labelled
    with 11. *)
Lemma aggregated_label_truncates_mean_sample :
  exists ds w',
    @create_dataset Sample.environment (Sample.loader _BBBC001Loader "")
                    Sample.empty_world = (Return ds, w')
    /\ label_at ds 1 = Some (CountLabel 11).
Proof.
  eexists. eexists. split.
  - vm_compute. reflexivity.
  - refine (proj1
      (proj2 (proj2
         (@aggregated_label_truncates_mean Sample.environment
            (Sample.loader _BBBC001Loader "") Sample.empty_world _ _
            "two rows"
            [("manual count #1", [3; 10]); ("manual count #2", [4; 13])]
            [3; 10] [4; 13]
            (or_introl eq_refl) _ _ eq_refl eq_refl eq_refl))
         1%nat 10 13 eq_refl eq_refl _)).
    + vm_compute. reflexivity.
    + reflexivity.
    + lia.
Defined.

(** 0.5 is rejected with the world untouched. *)
Lemma invalid_overlap_fails_before_io_sample :
  is_BBBC004 _BBBC004_Loader
  /\ ~ valid_overlap Sample.lit_0_5
  /\ @construct Sample.environment _BBBC004_Loader
                [PyFloat Sample.lit_0_5] [] Sample.empty_world
     = (Raise (ValueError
                 "Overlap_probability must be one of dict_keys([0.0, 0.15, 0.3, 0.45, 0.6]), got 0.5"),
        Sample.empty_world).
Proof.
  assert (Hc : is_BBBC004 _BBBC004_Loader) by (right; reflexivity).
  assert (Hf : ~ valid_overlap Sample.lit_0_5).
  { unfold valid_overlap. intros [H | [H | [H | [H | [H | H]]]]];
      discriminate H. }
  split; [exact Hc |]. split; [exact Hf |].
  exact (proj1 (@invalid_overlap_fails_before_io Sample.environment
                  _BBBC004_Loader Sample.lit_0_5 Sample.empty_world Hc Hf)).
Defined.

(** A first load of BBBC001 fetches both files; the second fetches
    nothing and returns the same. *)
Lemma reload_twice_sample :
  exists r w1,
    @load Sample.environment Load_bbbc001 (PyStr "index") (PyList []) true
          PyNone PyNone [] Sample.empty_world = (Return r, w1)
    /\ List.length (fetched w1) = 2%nat
    /\ @load Sample.environment Load_bbbc001 (PyStr "index") (PyList [])
             true PyNone PyNone [] w1 = (Return r, w1).
Proof.
  eexists. eexists. split; [vm_compute; reflexivity |].
  split; [reflexivity |].
  refine (proj1 (@reload_twice_same_result_no_fetch Sample.environment
                   Load_bbbc001 (PyStr "index") (PyList []) PyNone PyNone
                   [] Sample.empty_world _ _ _)).
  vm_compute. reflexivity.
Defined.



(** The refused foreground fetch of the sample network. *)
Lemma sample_foreground_failure :
  @io_failure Sample.environment
    (Sample.loader _BBBC004_Segmentation_Loader "00") Sample.empty_world
    (ExternalError "connection refused")
    (logged BBBC4_FOREGROUND_URL "/data"
       (stored BBBC4_IMAGE_URL "/data" "archive of 20" Sample.empty_world)).
Proof.
  apply (@fails_network Sample.environment
           (Sample.loader _BBBC004_Segmentation_Loader "00")
           [("/data/BBBC004_v1_000_images.zip", BBBC4_IMAGE_URL)]
           "/data/BBBC004_v1_000_foreground.zip" BBBC4_FOREGROUND_URL []).
  - reflexivity.
  - apply (@fetched_stored Sample.environment "/data" _ _ []
             Sample.empty_world "archive of 20");
      [reflexivity | reflexivity | apply fetched_nil].
  - reflexivity.
  - reflexivity.
Defined.

Lemma io_errors_propagate_sample :
  @create_dataset Sample.environment
    (Sample.loader _BBBC004_Segmentation_Loader "00") Sample.empty_world
  = (Raise (ExternalError "connection refused"),
     logged BBBC4_FOREGROUND_URL "/data"
       (stored BBBC4_IMAGE_URL "/data" "archive of 20" Sample.empty_world)).
Proof.
  exact (proj1 (@io_errors_propagate Sample.environment _ _ _ _
                  sample_foreground_failure)).
Defined.

(** With the code 15 the count loader fetches the archive of overlap 0.0
    and still does not find the file it looks for. *)
Lemma BBBC004_fetches_overlap_zero_sample :
  exists r w',
    @create_dataset Sample.environment (Sample.loader _BBBC004_Loader "15")
                    Sample.empty_world = (r, w')
    /\ In (BBBC4_IMAGE_URL, "/data") (fetched w')
    /\ lookup_file (files w') "/data/BBBC004_v1_015_images.zip" = None.
Proof.
  destruct (@create_dataset Sample.environment
              (Sample.loader _BBBC004_Loader "15") Sample.empty_world)
    as [r w'] eqn:E.
  exists r, w'. split; [reflexivity |].
  assert (Hc : is_BBBC004 (cls (Sample.loader _BBBC004_Loader "15")))
    by (right; reflexivity).
  assert (Hcode : In (overlap_probability (Sample.loader _BBBC004_Loader "15"))
                     (map snd overlap_dict))
    by (simpl; right; left; reflexivity).
  pose proof (@BBBC004_fetches_overlap_zero_archives Sample.environment
                (Sample.loader _BBBC004_Loader "15") Sample.empty_world
                r w' Hc Hcode E) as H.
  cbv zeta in H.
  destruct H as (_ & Hfetch & _ & _ & Hother).
  split.
  - apply Hfetch. reflexivity.
  - apply Hother; [discriminate | reflexivity].
Defined.



(** * The further properties on the sample environment *)

Lemma aggregated_label_between_counts_sample :
  exists v,
    nth_error [3; 11] 1 = Some v
    /\ Z.min 10 13 <= v <= Z.max 10 13
    /\ (10 = 13 -> v = 10).
Proof.
  apply (aggregated_label_between_counts [3; 10] [4; 13] [3; 11] 1 10 13);
    [reflexivity | reflexivity | reflexivity | lia].
Defined.

Lemma missing_annotator_column_sample :
  @create_dataset Sample.environment (Sample.loader _BBBC002Loader "")
                  mislabelled_world
  = (Raise (KeyError "human counter 1 (Robert Lindquist)"),
     mislabelled_world).
Proof.
  refine (proj1
    (@missing_annotator_column_is_KeyError Sample.environment
       (Sample.loader _BBBC002Loader "") mislabelled_world "two rows"
       [("manual count #1", [3; 10]); ("manual count #2", [4; 13])]
       (or_intror eq_refl) _ eq_refl eq_refl) _).
  - intros f [<- | [<- | []]]; discriminate.
  - simpl. intros [H | [H | []]]; discriminate H.
Defined.

Lemma fetches_exactly_the_missing_files_sample :
  exists ds w',
    @create_dataset Sample.environment (Sample.loader _BBBC001Loader "")
                    Sample.empty_world = (Return ds, w')
    /\ fetched w' = [(BBBC1_LABEL_URL, "/data"); (BBBC1_IMAGE_URL, "/data")].
Proof.
  eexists. eexists. split; [vm_compute; reflexivity |].
  refine (@fetches_exactly_the_missing_files Sample.environment
            (Sample.loader _BBBC001Loader "") Sample.empty_world _ _ _ _).
  - intros [H | H]; discriminate H.
  - vm_compute. reflexivity.
Defined.

Lemma raw_files_on_disk_after_load_sample :
  lookup_file
    (files (snd (@create_dataset Sample.environment
                   (Sample.loader _BBBC001Loader "") Sample.empty_world)))
    "/data/BBBC001_v1_counts.txt" <> None.
Proof.
  refine (@raw_files_on_disk_after_load Sample.environment
            (Sample.loader _BBBC001Loader "") Sample.empty_world
            (fst (@create_dataset Sample.environment
                    (Sample.loader _BBBC001Loader "") Sample.empty_world))
            _ (or_introl (or_introl eq_refl)) _ _
            "/data/BBBC001_v1_counts.txt" _).
  - intros u [<- | [<- | []]]; eexists; reflexivity.
  - apply surjective_pairing.
  - right. left. reflexivity.
Defined.

Lemma BBBC004_constructors_drop_kwargs_sample :
  @construct Sample.environment _BBBC004_Loader [PyFloat Sample.lit_0_5]
             [("verbose", PyBool true)] Sample.empty_world
  = @construct Sample.environment _BBBC004_Loader [PyFloat Sample.lit_0_5]
               [] Sample.empty_world.
Proof.
  refine (proj1 (proj1 (@BBBC004_constructors_drop_kwargs
                          Sample.environment
                          _BBBC004_Loader (PyFloat Sample.lit_0_5)
                          [("verbose", PyBool true)] Sample.empty_world
                          (or_intror eq_refl) _) _));
    simpl; intros [H | []]; discriminate H.
Defined.

Lemma BBBC004_constructors_on_other_values_sample :
  @construct Sample.environment _BBBC004_Segmentation_Loader
             [PyList [PyFloat lit_0_3]] [] Sample.empty_world
  = (Raise (TypeError Unhashable), Sample.empty_world).
Proof.
  exact (proj1 (@BBBC004_constructors_on_other_values Sample.environment
                  _BBBC004_Segmentation_Loader Sample.empty_world
                  (or_introl eq_refl)) [PyFloat lit_0_3]).
Defined.

Lemma validated_overlaps_keep_files_apart_sample :
  os_path_join "/data" (BBBC004_images_name "15")
  = os_path_join "/data" (BBBC004_images_name "30")
  <-> SFeqb lit_0_15 lit_0_3 = true.
Proof.
  exact (proj1 (validated_overlaps_keep_files_apart
                  lit_0_15 lit_0_3 "15" "30" "/data" eq_refl eq_refl)).
Defined.

Lemma generate_sequences_well_formed_sample :
  1 <= 10 < 2 ^ 63
  /\ yielded (generate_sequences sample_entropy 10 3 0)
     = [([5; 9; 7; 9; 5; 5], [5; 9; 7; 9; 5; 5]);
        ([7; 9; 5; 5; 9; 7; 9; 5; 5; 9], [7; 9; 5; 5; 9; 7; 9; 5; 5; 9]);
        ([9; 5; 5; 9; 7; 9; 5; 5], [9; 5; 5; 9; 7; 9; 5; 5])]
  /\ stopped (generate_sequences sample_entropy 10 3 0) = None.
Proof.
  assert (H : 1 <= 10 < 2 ^ 63) by lia.
  split; [exact H |]. split; [vm_compute; reflexivity |].
  exact (proj1 (generate_sequences_well_formed sample_entropy 10 3 0 H)).
Defined.


Lemma generate_sequences_in_two_runs_sample :
  yielded (generate_sequences sample_entropy 10 (2 + 1) 0)
  = yielded (generate_sequences sample_entropy 10 2 0)
    ++ yielded (generate_sequences sample_entropy 10 1
                  (drawn_after (generate_sequences sample_entropy 10 2 0))).
Proof.
  refine (proj1 (generate_sequences_in_two_runs sample_entropy 10 2 1 0
                   _ _ _)); lia.
Defined.

Lemma count_mode_fetches_only_images_sample :
  fetched (snd (@create_dataset Sample.environment
                  (Sample.loader _BBBC004_Loader "15") Sample.empty_world))
  = [(BBBC4_IMAGE_URL, "/data")].
Proof.
  refine (proj1 (proj2
    (@count_mode_fetches_only_images Sample.environment
       (Sample.loader _BBBC004_Loader "15") Sample.empty_world
       (fst (@create_dataset Sample.environment
               (Sample.loader _BBBC004_Loader "15") Sample.empty_world))
       _ eq_refl _)) eq_refl).
  apply surjective_pairing.
Defined.
